(** * longhorn-orc: the docker orchestration engine (orch/docker/docker.go)

    A shallow embedding of the engine's volume operations, of its
    schedule-request construction and of the local action handlers, with
    the Metadata Store, the Container Runtime, the readiness prober, the
    scheduler and the clock as an explicit world that the operations
    thread through. *)

From Stdlib Require Import Ascii.
From stdpp Require Import gmap strings list fin_maps pretty.

Local Open Scope string_scope.
Local Open Scope list_scope.
Local Open Scope Z_scope.

(** ** Data model

    Package types is not part of docker.go: its records are given the
    fields that docker.go reads and writes, under the names it uses. *)

(** [time.Time], counted in nanoseconds from the zero instant; the zero
    [time.Time] is [0]. *)
Definition Time := N.

(** Modelled from the spec: types.HostInfo, [{UUID, Name, Address}]. *)
Module HostInfo.
Record t := mk { UUID : string; Name : string; Address : string }.
End HostInfo.

(** Modelled from the spec: types.InstanceType, Controller, Replica or
    None; the constants are named as docker.go names them. *)
Inductive InstanceType :=
| InstanceTypeNone
| InstanceTypeController
| InstanceTypeReplica.

(** Modelled from the spec: types.InstanceInfo,
    [{ID, Type, Name, HostID, Address, Running}]. *)
Module InstanceInfo.
Record t := mk {
    ID : string;
    Type_ : InstanceType;
    Name : string;
    HostID : string;
    Address : string;
    Running : bool
  }.
End InstanceInfo.

(** Modelled from the spec: types.ControllerInfo, which embeds an
    InstanceInfo. *)
Module ControllerInfo.
Record t := mk { InstanceInfo : InstanceInfo.t }.
End ControllerInfo.

(** Modelled from the spec: types.ReplicaInfo, an embedded InstanceInfo
    (whence Name and Address) and the BadTimestamp. *)
Module ReplicaInfo.
Record t := mk { InstanceInfo : InstanceInfo.t; BadTimestamp : Time }.
(* fields promoted from the embedded InstanceInfo *)
Definition Name (r : t) : string := InstanceInfo.Name (InstanceInfo r).
Definition Address (r : t) : string := InstanceInfo.Address (InstanceInfo r).
End ReplicaInfo.

(** Modelled from the spec: types.VolumeInfo,
    [{Name, Size, LonghornImage, Replicas}]; Size is an int64
    (strconv.FormatInt takes it), Replicas a map from replica name to
    replica. *)
Module VolumeInfo.
Record t := mk {
    Name : string;
    Size : Z;
    LonghornImage : string;
    Replicas : gmap string ReplicaInfo.t
  }.
End VolumeInfo.

(** Modelled from the spec: types.ScheduleAction, the five constants that
    ProcessSchedule switches on, and any other value of the type. *)
Inductive ScheduleAction :=
| ScheduleActionCreateController
| ScheduleActionCreateReplica
| ScheduleActionStartInstance
| ScheduleActionStopInstance
| ScheduleActionDeleteInstance
| ScheduleActionOther (raw : string).

(** Modelled from the spec: types.ScheduleInstance, [{ID, Type, HostID}]. *)
Module ScheduleInstance.
Record t := mk { ID : string; Type_ : InstanceType; HostID : string }.
End ScheduleInstance.

(** Modelled from the spec: types.ScheduleData, the engine-kind tag and
    the opaque payload. *)
Module ScheduleData.
(* Data is a []byte *)
Record t := mk { Orchestrator : string; Data : string }.
End ScheduleData.

(** Modelled from the spec: types.ScheduleItem, [{Action, Instance, Data}]. *)
Module ScheduleItem.
Record t := mk {
    Action : ScheduleAction;
    Instance : ScheduleInstance.t;
    Data : ScheduleData.t
  }.
End ScheduleItem.

Module dockerScheduleData.
Record t := mk {
    InstanceName : string;
    VolumeName : string;
    VolumeSize : string;
    LonghornImage : string;
    ReplicaAddresses : list string
  }.
(* var data dockerScheduleData *)
Definition zero : t := mk "" "" "" "" [].
End dockerScheduleData.

(** The docker client's container.Config and container.HostConfig, with the
    fields docker.go sets, and the part of its ContainerJSON that
    generateInstanceInfo reads. *)
Module Config.
Record t := mk {
    ExposedPorts : list string;
    Image : string;
    Volumes : list string;
    Cmd : list string
  }.
End Config.

Module HostConfig.
Record t := mk { Binds : list string; Privileged : bool }.
End HostConfig.

Module ContainerJSON.
Record t := mk {
    ID : string;
    Name : string;
    IPAddress : string;
    Running : bool
  }.
End ContainerJSON.

Module dockerOrc.
Record t := mk {
    Servers : list string;
    Prefix : string;
    LonghornImage : string;
    currentHost : HostInfo.t
  }.
End dockerOrc.

(** ** Errors (github.com/pkg/errors) *)

(** An argument of a format string, kept unrendered. *)
Inductive fmtArg :=
| AString (s : string)
| AVolume (v : option VolumeInfo.t)
| APayload (p : dockerScheduleData.t)
| AAction (a : ScheduleAction)
| AInstanceType (t : InstanceType).

Inductive error :=
| KeyNotFound (key : string)          (* the store has no record under the key *)
| StoreUnavailable                    (* the store did not serve the request *)
| Foreign (msg : string)              (* raised by the runtime, the prober, the codec or a remote agent *)
| Errorf (format : string) (args : list fmtArg)
| Wrap (cause : error) (message : string)
| Wrapf (cause : error) (format : string) (args : list fmtArg).

(** A Go [error] value is [nil] or an error; a Go pointer result likewise. *)
Definition goret (A : Type) : Type := (option A * option error)%type.

Definition errors_Errorf (format : string) (args : list fmtArg) : option error :=
  Some (Errorf format args).

(* errors.Wrap: "If err is nil, Wrap returns nil." *)
Definition errors_Wrap (err : option error) (message : string) : option error :=
  match err with
  | None => None
  | Some e => Some (Wrap e message)
  end.

Definition errors_Wrapf (err : option error) (format : string) (args : list fmtArg)
  : option error :=
  match err with
  | None => None
  | Some e => Some (Wrapf e format args)
  end.

(** ** Constants *)

Definition OrcName : string := "docker".
Definition WaitDeviceTimeout : Z := 30.
Definition WaitAPITimeout : Z := 30.

(** ** The world the engine runs in *)

(** Calls the engine issues to its collaborators, in the order issued. *)
Inductive Event :=
| EvCreate (config : Config.t) (hostConfig : HostConfig.t) (containerName : string)
| EvStart (containerID : string)
| EvStop (containerID : string)
| EvRemove (containerID : string) (removeVolumes : bool)
| EvInspect (containerID : string)
| EvWaitForAPI (url : string) (timeout : Z)
| EvWaitForDevice (path : string) (timeout : Z)
| EvSchedule (item : ScheduleItem.t).

Record World := mkWorld {
  volumes : gmap string VolumeInfo.t;   (* Metadata Store: volume records by name *)
  faults : list bool;                   (* the coming store requests: true = not served *)
  trace : list Event;                   (* collaborator calls issued so far *)
  clock : Time                          (* the present instant *)
}.

(** The collaborators' answers.  An answer may depend on every call issued
    before it. *)
Record Env := mkEnv {
  ContainerCreate : list Event → Config.t → HostConfig.t → string → string * option error;
  ContainerStart : list Event → string → option error;
  ContainerStop : list Event → string → option error;
  ContainerRemove : list Event → string → option error;
  ContainerInspect : list Event → string → ContainerJSON.t * option error;
  WaitForAPI : list Event → string → Z → option error;
  WaitForDevice : list Event → string → Z → option error;
  json_Marshal : dockerScheduleData.t → string * option error;
  json_Unmarshal : string → dockerScheduleData.t * option error;
  filepath_Join : string → string → string;
  (* the order in which one range loop over a map visits its entries *)
  rangeOrder : list (string * ReplicaInfo.t) → list (string * ReplicaInfo.t);
  (* nanoseconds that pass until the clock is read *)
  latency : Time → N;
  (* the scheduler's placement policy and the answer of a remote agent *)
  placement : ScheduleItem.t → string;
  remote : string → ScheduleItem.t → goret InstanceInfo.t
}.

(** Calls that take a container down. *)
Definition isTeardown (ev : Event) : bool :=
  match ev with
  | EvStop _ | EvRemove _ _ => true
  | _ => false
  end.

(** ** State monad with panics *)

Inductive Outcome (A : Type) :=
| Done (a : A)
| Panic.
Arguments Done {A} a.
Arguments Panic {A}.

Definition M (A : Type) : Type := World → Outcome A * World.

Definition ret {A} (a : A) : M A := λ w, (Done a, w).

Definition bind {A B} (m : M A) (k : A → M B) : M B :=
  λ w, match m w with
       | (Done a, w') => k a w'
       | (Panic, w') => (Panic, w')
       end.

Notation "'let*' x ':=' m 'in' k" := (bind m (λ x, k))
  (at level 10, x pattern, m at level 100, k at level 200).

(* dereference of a pointer: a nil pointer panics *)
Definition deref {A} (p : option A) : M A :=
  λ w, match p with
       | Some a => (Done a, w)
       | None => (Panic, w)
       end.

Definition emit (ev : Event) : M unit :=
  λ w, (Done tt, mkWorld (volumes w) (faults w) (trace w ++ [ev]) (clock w)).

Definition history : M (list Event) := λ w, (Done (trace w), w).

(** The world after the calls [evs] have been issued. *)
Definition issued (w : World) (evs : list Event) : World :=
  mkWorld (volumes w) (faults w) (trace w ++ evs) (clock w).

(** ** Metadata Store *)

(** The accessors of the Metadata Store (getVolume, setVolume, rmVolume)
    are methods of the engine that are not part of docker.go.  The store
    keeps one volume record per name, and any request to it can go unserved
    ([StoreUnavailable]). *)

(** Modelled from the spec: whether the store serves the coming request. *)
Definition served : M bool :=
  λ w, match faults w with
       | [] => (Done true, w)
       | f :: fs => (Done (negb f), mkWorld (volumes w) fs (trace w) (clock w))
       end.

(** Modelled from the spec: getVolume, the read of a volume record.  A
    name without a record is reported as an error, which is how
    UpdateVolume words it (any error of getVolume is "doesn't exists"). *)
Definition getVolume (volumeName : string) : M (goret VolumeInfo.t) :=
  let* ok := served in
  if ok : bool then
    λ w, match volumes w !! volumeName with
         | Some v => (Done (Some v, None), w)
         | None => (Done (None, Some (KeyNotFound volumeName)), w)
         end
  else ret (None, Some StoreUnavailable).

(** Modelled from the spec: setVolume, the write of a volume record under
    its name, as given. *)
Definition setVolume (volume : VolumeInfo.t) : M (option error) :=
  let* ok := served in
  if ok : bool then
    λ w, (Done None,
          mkWorld (<[VolumeInfo.Name volume := volume]> (volumes w))
                  (faults w) (trace w) (clock w))
  else ret (Some StoreUnavailable).

(** Modelled from the spec: rmVolume, the removal of the record stored
    under a name. *)
Definition rmVolume (volumeName : string) : M (option error) :=
  let* ok := served in
  if ok : bool then
    λ w, match volumes w !! volumeName with
         | Some _ =>
             (Done None,
              mkWorld (delete volumeName (volumes w)) (faults w) (trace w) (clock w))
         | None => (Done (Some (KeyNotFound volumeName)), w)
         end
  else ret (Some StoreUnavailable).

(** ** Clock *)

(* time.Now().UTC() *)
Definition time_Now (env : Env) : M Time :=
  λ w, let t := (clock w + latency env (clock w))%N in
       (Done t, mkWorld (volumes w) (faults w) (trace w) t).

(** ** The engine *)

(* strings.TrimPrefix *)
Definition strings_TrimPrefix (s prefix : string) : string :=
  if String.prefix prefix s
  then String.substring (String.length prefix)
                        (String.length s - String.length prefix)%nat s
  else s.

Section Engine.

Context (env : Env) (d : dockerOrc.t).

(** *** Calls to the Container Runtime and to the readiness prober *)

Definition cli_ContainerCreate (config : Config.t) (hostConfig : HostConfig.t)
    (containerName : string) : M (string * option error) :=
  let* h := history in
  let* _ := emit (EvCreate config hostConfig containerName) in
  ret (ContainerCreate env h config hostConfig containerName).

Definition cli_ContainerStart (containerID : string) : M (option error) :=
  let* h := history in
  let* _ := emit (EvStart containerID) in
  ret (ContainerStart env h containerID).

Definition cli_ContainerStop (containerID : string) : M (option error) :=
  let* h := history in
  let* _ := emit (EvStop containerID) in
  ret (ContainerStop env h containerID).

Definition cli_ContainerRemove (containerID : string) (removeVolumes : bool)
  : M (option error) :=
  let* h := history in
  let* _ := emit (EvRemove containerID removeVolumes) in
  ret (ContainerRemove env h containerID).

Definition cli_ContainerInspect (containerID : string)
  : M (ContainerJSON.t * option error) :=
  let* h := history in
  let* _ := emit (EvInspect containerID) in
  ret (ContainerInspect env h containerID).

Definition util_WaitForAPI (url : string) (timeout : Z) : M (option error) :=
  let* h := history in
  let* _ := emit (EvWaitForAPI url timeout) in
  ret (WaitForAPI env h url timeout).

Definition util_WaitForDevice (path : string) (timeout : Z) : M (option error) :=
  let* h := history in
  let* _ := emit (EvWaitForDevice path timeout) in
  ret (WaitForDevice env h path timeout).

(** *** Hosts *)

Definition GetCurrentHostID : string :=
  HostInfo.UUID (dockerOrc.currentHost d).

(** *** Volumes *)

Definition CreateVolume (volume : VolumeInfo.t) : M (goret VolumeInfo.t) :=
  let* (v, err) := getVolume (VolumeInfo.Name volume) in
  match err, v with
  | None, Some _ =>
      ret (None, errors_Errorf "volume %v already exists %+v"
                   [AString (VolumeInfo.Name volume); AVolume v])
  | _, _ =>
      let* err := setVolume volume in
      match err with
      | Some _ => ret (None, errors_Wrap err "fail to create new volume metadata")
      | None => ret (Some volume, None)
      end
  end.

Definition DeleteVolume (volumeName : string) : M (option error) :=
  rmVolume volumeName.

Definition GetVolume (volumeName : string) : M (goret VolumeInfo.t) :=
  getVolume volumeName.

Definition UpdateVolume (volume : VolumeInfo.t) : M (option error) :=
  let* (v, err) := getVolume (VolumeInfo.Name volume) in
  match err with
  | Some _ =>
      ret (errors_Errorf "cannot update volume %v because it doesn't exists %+v"
             [AString (VolumeInfo.Name volume); AVolume v])
  | None => setVolume volume
  end.

(* r.BadTimestamp = t *)
Definition stamp (r : ReplicaInfo.t) (t : Time) : ReplicaInfo.t :=
  ReplicaInfo.mk (ReplicaInfo.InstanceInfo r) t.

(* v.Replicas[k] = r *)
Definition putReplica (v : VolumeInfo.t) (k : string) (r : ReplicaInfo.t)
  : VolumeInfo.t :=
  VolumeInfo.mk (VolumeInfo.Name v) (VolumeInfo.Size v)
    (VolumeInfo.LonghornImage v) (<[k := r]> (VolumeInfo.Replicas v)).

Definition MarkBadReplica (volumeName : string) (replica : ReplicaInfo.t)
  : M (option error) :=
  let* (v, err) := getVolume volumeName in
  match err with
  | Some _ => ret (errors_Wrap err "fail to mark bad replica, cannot get volume")
  | None =>
      let* v := deref v in
      (* the range loop stops at the first entry whose Name matches *)
      let* v :=
        match List.find
                (λ kr, String.eqb (ReplicaInfo.Name kr.2) (ReplicaInfo.Name replica))
                (rangeOrder env (map_to_list (VolumeInfo.Replicas v))) with
        | Some (k, r) =>
            let* now := time_Now env in
            ret (putReplica v k (stamp r now))
        | None => ret v
        end in
      let* err := UpdateVolume v in
      match err with
      | Some _ =>
          ret (errors_Wrap err "fail to mark bad replica, cannot update volume")
      | None => ret None
      end
  end.

(** *** Action handlers *)

Definition generateInstanceInfo (instanceID : string) (instanceType : InstanceType)
  : M (goret InstanceInfo.t) :=
  let* (inspectJSON, err) := cli_ContainerInspect instanceID in
  match err with
  | Some _ => ret (None, errors_Wrap err "fail to inspect replica container")
  | None =>
      ret (Some (InstanceInfo.mk
                   (ContainerJSON.ID inspectJSON)
                   instanceType
                   (strings_TrimPrefix (ContainerJSON.Name inspectJSON) "/")
                   GetCurrentHostID
                   (ContainerJSON.IPAddress inspectJSON)
                   (ContainerJSON.Running inspectJSON)),
           None)
  end.

Definition startInstance (instanceID : string) (instanceType : InstanceType)
  : M (goret InstanceInfo.t) :=
  let* err := cli_ContainerStart instanceID in
  match err with
  | Some _ =>
      ret (None, errors_Wrapf err "fail to start instance '%v' type %v"
                   [AString instanceID; AInstanceType instanceType])
  | None => generateInstanceInfo instanceID instanceType
  end.

Definition stopInstance (instanceID : string) (instanceType : InstanceType)
  : M (goret InstanceInfo.t) :=
  let* err := cli_ContainerStop instanceID in
  match err with
  | Some _ =>
      ret (None, errors_Wrapf err "fail to start instance '%v'" [AString instanceID])
  | None => generateInstanceInfo instanceID instanceType
  end.

Definition removeInstance (instanceID : string) (instanceType : InstanceType)
  : M (goret InstanceInfo.t) :=
  let* err := cli_ContainerRemove instanceID true in
  match err with
  | Some _ =>
      ret (None, errors_Wrapf err "Fail to remove instance %v" [AString instanceID])
  | None =>
      ret (Some (InstanceInfo.mk instanceID instanceType "" "" "" false), None)
  end.

Definition getDeviceName (volumeName : string) : string :=
  filepath_Join env "/dev/longhorn/" volumeName.

(* instance.Address = a *)
Definition setAddress (i : InstanceInfo.t) (a : string) : InstanceInfo.t :=
  InstanceInfo.mk (InstanceInfo.ID i) (InstanceInfo.Type_ i) (InstanceInfo.Name i)
    (InstanceInfo.HostID i) a (InstanceInfo.Running i).

Definition controllerCmd (data : dockerScheduleData.t) : list string :=
  let cmd := ["launch"; "controller";
              "--listen"; "0.0.0.0:9501";
              "--frontend"; "tgt"] in
  let cmd := fold_left (λ cmd address, cmd ++ ["--replica"; address])
               (dockerScheduleData.ReplicaAddresses data) cmd in
  cmd ++ [dockerScheduleData.VolumeName data].

(* &dContainer.Config{Image: data.LonghornImage, Cmd: cmd} *)
Definition controllerConfig (data : dockerScheduleData.t) : Config.t :=
  Config.mk [] (dockerScheduleData.LonghornImage data) [] (controllerCmd data).

Definition controllerHostConfig : HostConfig.t :=
  HostConfig.mk ["/dev:/host/dev"; "/proc:/host/proc"] true.

Definition createController (data : dockerScheduleData.t) : M (goret InstanceInfo.t) :=
  let* (createBodyID, err) :=
    cli_ContainerCreate (controllerConfig data) controllerHostConfig
      (dockerScheduleData.InstanceName data) in
  match err with
  | Some _ => ret (None, errors_Wrap err "fail to create controller container")
  | None =>
      let* (instance, err) := startInstance createBodyID InstanceTypeController in
      match err with
      | Some _ =>
          let* _ := removeInstance createBodyID InstanceTypeController in
          ret (None, errors_Wrap err "fail to start controller container")
      | None =>
          let* instance := deref instance in
          let instance :=
            setAddress instance ("http://" +:+ InstanceInfo.Address instance +:+ ":9501") in
          let url := InstanceInfo.Address instance +:+ "/v1" in
          let* err := util_WaitForAPI url WaitAPITimeout in
          match err with
          | Some _ =>
              ret (None, errors_Wrapf err "fail to wait for api endpoint at %v"
                           [AString url])
          | None =>
              let* err :=
                util_WaitForDevice
                  (getDeviceName (dockerScheduleData.VolumeName data))
                  WaitDeviceTimeout in
              match err with
              | Some _ => ret (None, errors_Wrap err "fail to wait for device")
              | None => ret (Some instance, None)
              end
          end
      end
  end.

Definition replicaCmd (data : dockerScheduleData.t) : list string :=
  ["launch"; "replica";
   "--listen"; "0.0.0.0:9502";
   "--size"; dockerScheduleData.VolumeSize data;
   "/volume"].

Definition replicaConfig (data : dockerScheduleData.t) : Config.t :=
  Config.mk ["9502-9504"] (dockerScheduleData.LonghornImage data) ["/volume"]
    (replicaCmd data).

Definition replicaHostConfig : HostConfig.t := HostConfig.mk [] true.

Definition createReplica (data : dockerScheduleData.t) : M (goret InstanceInfo.t) :=
  let* (createBodyID, err) :=
    cli_ContainerCreate (replicaConfig data) replicaHostConfig
      (dockerScheduleData.InstanceName data) in
  match err with
  | Some _ => ret (None, errors_Wrap err "fail to create replica container")
  | None =>
      let* (instance, err) := startInstance createBodyID InstanceTypeReplica in
      match err with
      | Some _ =>
          let* _ := removeInstance createBodyID InstanceTypeReplica in
          ret (None, errors_Wrap err "fail to start replica container")
      | None => ret (instance, None)
      end
  end.

(** *** The local executor *)

(* var data dockerScheduleData, filled from a payload that is not empty *)
Definition unmarshalPayload (payload : string) : dockerScheduleData.t * option error :=
  if negb (Nat.eqb (String.length payload) 0)
  then json_Unmarshal env payload
  else (dockerScheduleData.zero, None).

Definition ProcessSchedule (item : ScheduleItem.t) : M (goret InstanceInfo.t) :=
  let orchestrator := ScheduleData.Orchestrator (ScheduleItem.Data item) in
  let payload := ScheduleData.Data (ScheduleItem.Data item) in
  let instance := ScheduleItem.Instance item in
  if negb (String.eqb orchestrator OrcName) then
    ret (None, errors_Errorf "received request for the wrong orchestrator %v"
                 [AString orchestrator])
  else
    let (data, err) := unmarshalPayload payload in
    match err with
    | Some _ => ret (None, errors_Wrap err "fail to parse schedule data")
    | None =>
        if String.eqb (ScheduleInstance.ID instance) "" then
          ret (None, errors_Errorf "empty instance ID" [])
        else
          match ScheduleItem.Action item with
          | ScheduleActionCreateController => createController data
          | ScheduleActionCreateReplica => createReplica data
          | ScheduleActionStartInstance =>
              startInstance (ScheduleInstance.ID instance)
                            (ScheduleInstance.Type_ instance)
          | ScheduleActionStopInstance =>
              stopInstance (ScheduleInstance.ID instance)
                           (ScheduleInstance.Type_ instance)
          | ScheduleActionDeleteInstance =>
              removeInstance (ScheduleInstance.ID instance)
                             (ScheduleInstance.Type_ instance)
          | ScheduleActionOther _ =>
              ret (None, errors_Errorf "Cannot find specified action %v"
                           [AAction (ScheduleItem.Action item)])
          end
    end.

(** *** Scheduler *)

(** Modelled from the spec: the Placement Scheduler (package scheduler) is
    not part of docker.go.  It accepts a Schedule Request, decides the
    executing host (the request's HostID when it names one, its placement
    policy otherwise), forwards the request to that host's engine (to
    ProcessSchedule of this engine when the host is the current one, to a
    remote agent otherwise) and returns the resulting instance. *)
Definition Schedule (item : ScheduleItem.t) : M (goret InstanceInfo.t) :=
  let* _ := emit (EvSchedule item) in
  let hostID :=
    if String.eqb (ScheduleInstance.HostID (ScheduleItem.Instance item)) ""
    then placement env item
    else ScheduleInstance.HostID (ScheduleItem.Instance item) in
  if String.eqb hostID GetCurrentHostID
  then ProcessSchedule item
  else ret (remote env hostID item).

(** *** Instance creation *)

(* strconv.FormatInt(i, 10) *)
Definition strconv_FormatInt (i : Z) : string := pretty i.

(* data.ReplicaAddresses = append(data.ReplicaAddresses, a) *)
Definition appendReplicaAddress (data : dockerScheduleData.t) (a : string)
  : dockerScheduleData.t :=
  dockerScheduleData.mk
    (dockerScheduleData.InstanceName data)
    (dockerScheduleData.VolumeName data)
    (dockerScheduleData.VolumeSize data)
    (dockerScheduleData.LonghornImage data)
    (dockerScheduleData.ReplicaAddresses data ++ [a]).

(* the payload prepareCreateController marshals *)
Definition controllerPayload (volume : VolumeInfo.t)
    (volumeName controllerName : string) (replicas : gmap string ReplicaInfo.t)
  : dockerScheduleData.t :=
  let data :=
    dockerScheduleData.mk controllerName volumeName ""
      (VolumeInfo.LonghornImage volume) [] in
  fold_left
    (λ data kr,
       appendReplicaAddress data ("tcp://" +:+ ReplicaInfo.Address kr.2 +:+ ":9502"))
    (rangeOrder env (map_to_list replicas)) data.

Definition prepareCreateController (volumeName controllerName : string)
    (replicas : gmap string ReplicaInfo.t) : M (goret ScheduleData.t) :=
  let* (volume, err) := getVolume volumeName in
  match err with
  | Some _ => ret (None, errors_Wrap err "unable to create controller")
  | None =>
      match volume with
      | None =>
          ret (None, errors_Wrapf err "unable to find volume %v" [AString volumeName])
      | Some volume =>
          let data := controllerPayload volume volumeName controllerName replicas in
          let (bData, err) := json_Marshal env data in
          match err with
          | Some _ =>
              ret (None, errors_Wrapf err "unable to marshall %+v" [APayload data])
          | None => ret (Some (ScheduleData.mk OrcName bData), None)
          end
      end
  end.

Definition CreateController (volumeName controllerName : string)
    (replicas : gmap string ReplicaInfo.t) : M (goret ControllerInfo.t) :=
  let* (data, err) := prepareCreateController volumeName controllerName replicas in
  match err with
  | Some _ =>
      ret (None, errors_Wrapf err "Fail to create controller for %v"
                   [AString volumeName])
  | None =>
      let* data := deref data in
      let schedule :=
        ScheduleItem.mk ScheduleActionCreateController
          (ScheduleInstance.mk controllerName InstanceTypeController GetCurrentHostID)
          data in
      let* (instance, err) := Schedule schedule in
      match err with
      | Some _ =>
          ret (None, errors_Wrapf err "Fail to create controller for %v"
                       [AString volumeName])
      | None =>
          let* instance := deref instance in
          ret (Some (ControllerInfo.mk instance), None)
      end
  end.

(* the payload prepareCreateReplica marshals *)
Definition replicaPayload (volume : VolumeInfo.t) (replicaName : string)
  : dockerScheduleData.t :=
  dockerScheduleData.mk replicaName (VolumeInfo.Name volume)
    (strconv_FormatInt (VolumeInfo.Size volume))
    (VolumeInfo.LonghornImage volume) [].

Definition prepareCreateReplica (volumeName replicaName : string)
  : M (goret ScheduleData.t) :=
  let* (volume, err) := getVolume volumeName in
  match err with
  | Some _ => ret (None, errors_Wrap err "unable to create replica")
  | None =>
      match volume with
      | None =>
          ret (None, errors_Wrapf err "unable to find volume %v" [AString volumeName])
      | Some volume =>
          if Z.eqb (VolumeInfo.Size volume) 0 then
            ret (None, errors_Wrap err "invalid volume size 0")
          else
            let data := replicaPayload volume replicaName in
            let (bData, err) := json_Marshal env data in
            match err with
            | Some _ =>
                ret (None, errors_Wrapf err "unable to marshall %+v" [APayload data])
            | None => ret (Some (ScheduleData.mk OrcName bData), None)
            end
      end
  end.

Definition CreateReplica (volumeName replicaName : string)
  : M (goret ReplicaInfo.t) :=
  let* (data, err) := prepareCreateReplica volumeName replicaName in
  match err with
  | Some _ =>
      ret (None, errors_Wrapf err "Fail to create replica for %v"
                   [AString volumeName])
  | None =>
      let* data := deref data in
      let schedule :=
        ScheduleItem.mk ScheduleActionCreateReplica
          (ScheduleInstance.mk replicaName InstanceTypeReplica "")
          data in
      let* (instance, err) := Schedule schedule in
      match err with
      | Some _ =>
          ret (None, errors_Wrapf err "Fail to create replica for %v"
                       [AString volumeName])
      | None =>
          let* instance := deref instance in
          ret (Some (ReplicaInfo.mk instance 0%N), None)
      end
  end.

End Engine.

Arguments cli_ContainerCreate : simpl never.
Arguments cli_ContainerStart : simpl never.
Arguments cli_ContainerStop : simpl never.
Arguments cli_ContainerRemove : simpl never.
Arguments cli_ContainerInspect : simpl never.
Arguments util_WaitForAPI : simpl never.
Arguments util_WaitForDevice : simpl never.
Arguments generateInstanceInfo : simpl never.
Arguments startInstance : simpl never.
Arguments stopInstance : simpl never.
Arguments removeInstance : simpl never.
Arguments createController : simpl never.
Arguments createReplica : simpl never.
Arguments ProcessSchedule : simpl never.
Arguments Schedule : simpl never.
Arguments getVolume : simpl never.
Arguments setVolume : simpl never.
Arguments issued : simpl never.

(** ** The engine, continued *)

(** Waits of the readiness prober. *)
Definition isReadinessWait (ev : Event) : bool :=
  match ev with
  | EvWaitForAPI _ _ | EvWaitForDevice _ _ => true
  | _ => false
  end.

(** The instance handed to a [%+v] verb, kept unrendered field by field. *)
Definition fmtInstance (instance : InstanceInfo.t) : list fmtArg :=
  [AString (InstanceInfo.ID instance);
   AInstanceType (InstanceInfo.Type_ instance);
   AString (InstanceInfo.Name instance);
   AString (InstanceInfo.HostID instance);
   AString (InstanceInfo.Address instance);
   AString (if InstanceInfo.Running instance then "true" else "false")].

(* the instance generateInstanceInfo derives from an inspection *)
Definition derivedInstance (d : dockerOrc.t) (type : InstanceType)
    (j : ContainerJSON.t) : InstanceInfo.t :=
  InstanceInfo.mk (ContainerJSON.ID j) type
    (strings_TrimPrefix (ContainerJSON.Name j) "/") (GetCurrentHostID d)
    (ContainerJSON.IPAddress j) (ContainerJSON.Running j).

Section InstanceOperations.

Context (env : Env) (d : dockerOrc.t).

(* instance.ID == "" || instance.HostID == "" || instance.Type == types.InstanceTypeNone *)
Definition invalidInstance (instance : InstanceInfo.t) : bool :=
  String.eqb (InstanceInfo.ID instance) ""
  || String.eqb (InstanceInfo.HostID instance) ""
  || match InstanceInfo.Type_ instance with
     | InstanceTypeNone => true
     | _ => false
     end.

(* the ScheduleItem the three operations build: the instance's ID, Type and
   HostID, the engine's tag and no payload *)
Definition instanceSchedule (action : ScheduleAction) (instance : InstanceInfo.t)
  : ScheduleItem.t :=
  ScheduleItem.mk action
    (ScheduleInstance.mk (InstanceInfo.ID instance) (InstanceInfo.Type_ instance)
       (InstanceInfo.HostID instance))
    (ScheduleData.mk OrcName "").

Definition StartInstance (instance : InstanceInfo.t) : M (option error) :=
  if invalidInstance instance then
    ret (errors_Errorf "Invalid instance info to start %+v" (fmtInstance instance))
  else
    let schedule := instanceSchedule ScheduleActionStartInstance instance in
    let* (_, err) := Schedule env d schedule in
    match err with
    | Some _ =>
        ret (errors_Wrapf err "Fail to start instance %v"
               [AString (InstanceInfo.ID instance)])
    | None => ret None
    end.

Definition StopInstance (instance : InstanceInfo.t) : M (option error) :=
  if invalidInstance instance then
    ret (errors_Errorf "Invalid instance info to stop %+v" (fmtInstance instance))
  else
    let schedule := instanceSchedule ScheduleActionStopInstance instance in
    let* (_, err) := Schedule env d schedule in
    match err with
    | Some _ =>
        ret (errors_Wrapf err "Fail to stop instance %v"
               [AString (InstanceInfo.ID instance)])
    | None => ret None
    end.

Definition RemoveInstance (instance : InstanceInfo.t) : M (option error) :=
  if invalidInstance instance then
    ret (errors_Errorf "Invalid instance info to remove %+v" (fmtInstance instance))
  else
    let schedule := instanceSchedule ScheduleActionDeleteInstance instance in
    let* (_, err) := Schedule env d schedule in
    match err with
    | Some _ =>
        ret (errors_Wrapf err "Fail to remove instance %v"
               [AString (InstanceInfo.ID instance)])
    | None => ret None
    end.

End InstanceOperations.

Arguments StartInstance : simpl never.
Arguments StopInstance : simpl never.
Arguments RemoveInstance : simpl never.

(** ** Host identity *)

Definition cfgDirectory : string := "/var/lib/rancher/longhorn/".
Definition hostUUIDFile : string := cfgDirectory +:+ ".physical_host_uuid".

(** The file system the agent boots on and the host records of the Metadata
    Store.  A request to either can fail; a failing file system request
    carries the message of its error. *)
Record HostWorld := mkHostWorld {
  files : gmap string string;           (* regular files: content by path *)
  fsFaults : list (option string);      (* the coming file system requests *)
  hosts : gmap string HostInfo.t;       (* Metadata Store: host records by UUID *)
  hostFaults : list bool                (* the coming host-record requests *)
}.

(** What the operating system and the UUID generator answer in one run of
    the agent. *)
Record HostEnv := mkHostEnv {
  os_Hostname : string * option string;
  util_UUID : string
}.

Definition fsRequest (w : HostWorld) : option string * HostWorld :=
  match fsFaults w with
  | [] => (None, w)
  | f :: fs => (f, mkHostWorld (files w) fs (hosts w) (hostFaults w))
  end.

(* ioutil.ReadFile *)
Definition ioutil_ReadFile (path : string) (w : HostWorld)
  : (string * option error) * HostWorld :=
  let (fault, w) := fsRequest w in
  match fault with
  | Some msg => (("", Some (Foreign msg)), w)
  | None =>
      match files w !! path with
      | Some content => ((content, None), w)
      | None => (("", Some (Foreign "no such file or directory")), w)
      end
  end.

(* os.MkdirAll *)
Definition os_MkdirAll (path : string) (w : HostWorld) : option string * HostWorld :=
  fsRequest w.

(* ioutil.WriteFile *)
Definition ioutil_WriteFile (path content : string) (w : HostWorld)
  : option string * HostWorld :=
  let (fault, w) := fsRequest w in
  match fault with
  | Some msg => (Some msg, w)
  | None =>
      (None, mkHostWorld (<[path := content]> (files w)) (fsFaults w) (hosts w)
               (hostFaults w))
  end.

Definition getCurrentHost (henv : HostEnv) (address : string) (w : HostWorld)
  : goret HostInfo.t * HostWorld :=
  let (name, err) := os_Hostname henv in
  match err with
  | Some msg => ((None, Some (Foreign msg)), w)
  | None =>
      let '((uuid, err), w) := ioutil_ReadFile hostUUIDFile w in
      match err with
      | None => ((Some (HostInfo.mk uuid name address), None), w)
      | Some _ =>
          (* file doesn't exists, generate new UUID for the host *)
          let uuid := util_UUID henv in
          let (err, w) := os_MkdirAll cfgDirectory w in
          match err with
          | Some msg =>
              ((None, errors_Errorf "Fail to create configuration directory: %v"
                        [AString msg]), w)
          | None =>
              let (err, w) := ioutil_WriteFile hostUUIDFile uuid w in
              match err with
              | Some msg =>
                  ((None, errors_Errorf "Fail to write host uuid file: %v"
                            [AString msg]), w)
              | None => ((Some (HostInfo.mk uuid name address), None), w)
              end
          end
      end
  end.

(** Modelled from the spec: setHost, the engine's write of a host record to
    the Metadata Store, is not part of docker.go; the record is kept under
    the host's UUID, its identity. *)
Definition setHost (host : HostInfo.t) (w : HostWorld) : option error * HostWorld :=
  match hostFaults w with
  | true :: fs => (Some StoreUnavailable, mkHostWorld (files w) (fsFaults w) (hosts w) fs)
  | false :: fs =>
      (None, mkHostWorld (files w) (fsFaults w)
               (<[HostInfo.UUID host := host]> (hosts w)) fs)
  | [] =>
      (None, mkHostWorld (files w) (fsFaults w)
               (<[HostInfo.UUID host := host]> (hosts w)) [])
  end.

(** Modelled from the spec: getHost, the read of a host record; an ID
    without a record is reported as an error. *)
Definition getHost (id : string) (w : HostWorld) : goret HostInfo.t * HostWorld :=
  match hostFaults w with
  | true :: fs =>
      ((None, Some StoreUnavailable), mkHostWorld (files w) (fsFaults w) (hosts w) fs)
  | _ =>
      let w' := mkHostWorld (files w) (fsFaults w) (hosts w) (tail (hostFaults w)) in
      match hosts w !! id with
      | Some host => ((Some host, None), w')
      | None => ((None, Some (KeyNotFound id)), w')
      end
  end.

(* d.currentHost = currentHost *)
Definition setCurrentHost (d : dockerOrc.t) (host : HostInfo.t) : dockerOrc.t :=
  dockerOrc.mk (dockerOrc.Servers d) (dockerOrc.Prefix d) (dockerOrc.LonghornImage d)
    host.

(** Register; the engine is returned as the call leaves it. *)
Definition Register (henv : HostEnv) (d : dockerOrc.t) (address : string)
    (w : HostWorld) : (option error * dockerOrc.t) * HostWorld :=
  let '((currentHost, err), w) := getCurrentHost henv address w in
  match err with
  | Some _ => ((err, d), w)
  | None =>
      match currentHost with
      | Some currentHost =>
          let (err, w) := setHost currentHost w in
          match err with
          | Some _ => ((err, d), w)
          | None => ((None, setCurrentHost d currentHost), w)
          end
      | None => ((None, d), w)   (* getCurrentHost returns a host or an error *)
      end
  end.

Definition GetHost (id : string) (w : HostWorld) : goret HostInfo.t * HostWorld :=
  getHost id w.

(** GetAddress; a nil host with a nil error would be dereferenced. *)
Definition GetAddress (d : dockerOrc.t) (hostID : string) (w : HostWorld)
  : Outcome (string * option error) * HostWorld :=
  if String.eqb hostID (HostInfo.UUID (dockerOrc.currentHost d)) then
    (Done (HostInfo.Address (dockerOrc.currentHost d), None), w)
  else
    let '((host, err), w) := GetHost hostID w in
    match err, host with
    | Some _, _ => (Done ("", err), w)
    | None, Some host => (Done (HostInfo.Address host, None), w)
    | None, None => (Panic, w)
    end.

(** ** A simulated environment *)

(** A line-oriented stand-in for the JSON codec: the four scalar fields of
    the payload, then one line per replica address. *)
Fixpoint lines (acc : string) (s : string) : list string :=
  match s with
  | EmptyString => [String.rev acc]
  | String c s' =>
      if Ascii.eqb c "010"%char then String.rev acc :: lines "" s'
      else lines (String c acc) s'
  end.

Definition sim_Marshal (data : dockerScheduleData.t) : string * option error :=
  (String.concat (String "010" "")
     (dockerScheduleData.InstanceName data
      :: dockerScheduleData.VolumeName data
      :: dockerScheduleData.VolumeSize data
      :: dockerScheduleData.LonghornImage data
      :: dockerScheduleData.ReplicaAddresses data),
   None).

Definition sim_Unmarshal (payload : string) : dockerScheduleData.t * option error :=
  match lines "" payload with
  | i :: v :: s :: l :: addresses => (dockerScheduleData.mk i v s l addresses, None)
  | _ => (dockerScheduleData.zero, Some (Foreign "unexpected end of JSON input"))
  end.

(** A runtime that names a container after the name it was created with and
    reports it running at [10.0.0.6]; each of its calls and each probe can
    be set to fail. *)
Record SimFaults := mkSimFaults {
  createFails : bool;
  startFails : bool;
  inspectFails : bool;
  removeFails : bool;
  apiProbeFails : bool;
  deviceProbeFails : bool
}.

Definition noFaults : SimFaults := mkSimFaults false false false false false false.

Definition answer (fails : bool) (msg : string) : option error :=
  if fails then Some (Foreign msg) else None.

Definition simEnv (f : SimFaults) : Env :=
  mkEnv
    (λ _ _ _ name, ("id-" +:+ name, answer (createFails f) "create: no such image"))
    (λ _ _, answer (startFails f) "start: driver failed")
    (λ _ _, None)
    (λ _ _, answer (removeFails f) "remove: container is busy")
    (λ _ id, (ContainerJSON.mk id ("/" +:+ strings_TrimPrefix id "id-") "10.0.0.6" true,
              answer (inspectFails f) "inspect: no such container"))
    (λ _ _ _, answer (apiProbeFails f) "timeout waiting for the API")
    (λ _ _ _, answer (deviceProbeFails f) "timeout waiting for the device")
    sim_Marshal
    sim_Unmarshal
    (λ dir name, dir +:+ name)
    (λ entries, entries)
    (λ _, 1000%N)
    (λ _, "host-1")
    (λ _ _, (None, Some (Foreign "remote agent unreachable"))).

Definition simOrc : dockerOrc.t :=
  dockerOrc.mk ["http://127.0.0.1:2379"] "/longhorn" "longhornio/engine:v1"
    (HostInfo.mk "host-1" "node1" "10.0.0.1:9500").

Definition replica1 : ReplicaInfo.t :=
  ReplicaInfo.mk (InstanceInfo.mk "id-r1" InstanceTypeReplica "r1" "host-1" "10.0.0.5" true) 0%N.

Definition replica2 : ReplicaInfo.t :=
  ReplicaInfo.mk (InstanceInfo.mk "id-r2" InstanceTypeReplica "r2" "host-2" "10.0.0.7" true) 0%N.

Definition vol1 : VolumeInfo.t :=
  VolumeInfo.mk "vol1" 1073741824 "longhornio/engine:v1"
    (<["r1" := replica1]> (<["r2" := replica2]> ∅)).

Definition vol0 : VolumeInfo.t :=
  VolumeInfo.mk "vol0" 0 "longhornio/engine:v1" ∅.

Definition emptyWorld : World := mkWorld ∅ [] [] 1500000000000000000%N.

Definition simWorld : World :=
  mkWorld (<["vol1" := vol1]> (<["vol0" := vol0]> ∅)) [] [] 1500000000000000000%N.

(** A store that holds vol1 and will not serve the next request. *)
Definition faultyWorld : World :=
  mkWorld (<["vol1" := vol1]> ∅) [true] [] 1500000000000000000%N.

Definition vol1_resized : VolumeInfo.t :=
  VolumeInfo.mk "vol1" 2147483648 "longhornio/engine:v2" ∅.

(** Environments in which one step of a creation fails. *)
Definition startFailing : SimFaults := mkSimFaults false true false false false false.
Definition apiFailing : SimFaults := mkSimFaults false false false false true false.
Definition deviceFailing : SimFaults := mkSimFaults false false false false false true.

Definition controllerData : dockerScheduleData.t :=
  dockerScheduleData.mk "c1" "vol1" "" "longhornio/engine:v1" ["tcp://10.0.0.5:9502"].

Definition replicaData : dockerScheduleData.t :=
  dockerScheduleData.mk "r1" "vol1" "1073741824" "longhornio/engine:v1" [].

Definition scheduleInstance1 : ScheduleInstance.t :=
  ScheduleInstance.mk "id-r1" InstanceTypeReplica "host-1".

(** A runtime that cannot create containers. *)
Definition createFailing : SimFaults := mkSimFaults true false false false false false.

Definition instance1 : InstanceInfo.t :=
  InstanceInfo.mk "id-r1" InstanceTypeReplica "r1" "host-1" "10.0.0.5" true.



(** Two runs of an agent on one machine, and the machine before its first
    boot, after it, and with an identity file that cannot be read. *)
Definition simHostEnv : HostEnv := mkHostEnv ("node1", None) "6f1c2d3e".
Definition simHostEnv2 : HostEnv := mkHostEnv ("node1", None) "9a7eb0c4".

Definition freshMachine : HostWorld := mkHostWorld ∅ [] ∅ [].

Definition bootedMachine : HostWorld :=
  mkHostWorld (<[hostUUIDFile := "6f1c2d3e"]> ∅) [] ∅ [].

Definition lockedMachine : HostWorld :=
  mkHostWorld (<[hostUUIDFile := "6f1c2d3e"]> ∅)
    [Some "permission denied"; None; None] ∅ [].

Definition blankOrc : dockerOrc.t :=
  dockerOrc.mk ["http://127.0.0.1:2379"] "/longhorn" "longhornio/engine:v1"
    (HostInfo.mk "" "" "").

(** * Properties *)

(** ** Volume records *)

Lemma served_healthy (w : World) : faults w = [] → served w = (Done true, w).
Proof. intros H. unfold served. by rewrite H. Qed.

Lemma getVolume_healthy (name : string) (w : World) :
  faults w = [] →
  getVolume name w =
    (Done match volumes w !! name with
          | Some v => (Some v, None)
          | None => (None, Some (KeyNotFound name))
          end, w).
Proof.
  intros H. unfold getVolume, bind. rewrite (served_healthy w H).
  by destruct (volumes w !! name).
Qed.

Lemma setVolume_healthy (v : VolumeInfo.t) (w : World) :
  faults w = [] →
  setVolume v w =
    (Done None,
     mkWorld (<[VolumeInfo.Name v := v]> (volumes w)) (faults w) (trace w) (clock w)).
Proof. intros H. unfold setVolume, bind. by rewrite (served_healthy w H). Qed.

(** A read goes unserved, finds no record, or returns the record of the
    store; the records, the trace and the clock stay as they are. *)
Lemma getVolume_cases (name : string) (w : World) :
  ∃ w', volumes w' = volumes w ∧ trace w' = trace w ∧ clock w' = clock w ∧
    (getVolume name w = (Done (None, Some StoreUnavailable), w') ∨
     (volumes w !! name = None ∧
      getVolume name w = (Done (None, Some (KeyNotFound name)), w')) ∨
     (∃ v, volumes w !! name = Some v ∧
           getVolume name w = (Done (Some v, None), w'))).
Proof.
  destruct w as [vs fl tr ck]. unfold getVolume, bind, served, ret. simpl.
  destruct fl as [|[] fs]; simpl; destruct (vs !! name) eqn:E;
    (eexists (mkWorld vs _ tr ck); simpl; do 3 (split; [reflexivity|]); eauto 6).
Qed.

(** C5. CreateVolume on a store that serves its requests: when a volume
    with the same name is persisted, it fails with the already-exists error
    and the world is as before; otherwise it persists the record as given
    and returns it, and GetVolume on the name then returns that record. *)
Theorem CreateVolume_fresh_or_exists (volume : VolumeInfo.t) (w : World) :
  faults w = [] →
  match volumes w !! VolumeInfo.Name volume with
  | Some v0 =>
      CreateVolume volume w =
        (Done (None, Some (Errorf "volume %v already exists %+v"
                             [AString (VolumeInfo.Name volume); AVolume (Some v0)])),
         w)
  | None =>
      ∃ w', CreateVolume volume w = (Done (Some volume, None), w') ∧
            volumes w' = <[VolumeInfo.Name volume := volume]> (volumes w) ∧
            GetVolume (VolumeInfo.Name volume) w' = (Done (Some volume, None), w')
  end.
Proof.
  intros H. unfold CreateVolume, bind.
  rewrite (getVolume_healthy _ w H).
  destruct (volumes w !! VolumeInfo.Name volume) as [v0|] eqn:E; [done|].
  rewrite (setVolume_healthy _ w H). eexists. split; [done|]. split; [done|].
  unfold GetVolume. rewrite getVolume_healthy by done. simpl.
  by rewrite lookup_insert_eq.
Qed.

Lemma setVolume_cases (v : VolumeInfo.t) (w : World) :
  (∃ w', setVolume v w = (Done None, w') ∧
         volumes w' = <[VolumeInfo.Name v := v]> (volumes w) ∧
         trace w' = trace w ∧ clock w' = clock w) ∨
  (∃ w', setVolume v w = (Done (Some StoreUnavailable), w') ∧
         volumes w' = volumes w ∧ trace w' = trace w ∧ clock w' = clock w).
Proof.
  destruct w as [vs fl tr ck]. unfold setVolume, bind, served, ret. simpl.
  destruct fl as [|[] fs]; simpl; eauto 10.
Qed.

(** C10. When the read that CreateVolume performs reports an error, the
    error is dropped and CreateVolume goes on to write the record: its
    result is the write's result.  The already-exists error is returned only
    when the read was served and returned a record. *)
Theorem CreateVolume_ignores_read_error (volume : VolumeInfo.t) (w : World) :
  (∀ v e w1,
     getVolume (VolumeInfo.Name volume) w = (Done (v, Some e), w1) →
     CreateVolume volume w =
       match setVolume volume w1 with
       | (Done None, w2) => (Done (Some volume, None), w2)
       | (Done (Some e'), w2) =>
           (Done (None, Some (Wrap e' "fail to create new volume metadata")), w2)
       | (Panic, w2) => (Panic, w2)
       end) ∧
  (∀ v args w',
     CreateVolume volume w =
       (Done (v, Some (Errorf "volume %v already exists %+v" args)), w') →
     ∃ v0, getVolume (VolumeInfo.Name volume) w = (Done (Some v0, None), w')).
Proof.
  split.
  - intros v e w1 Hget. unfold CreateVolume, bind. rewrite Hget.
    destruct (setVolume volume w1) as [[[e'|]|] w2]; reflexivity.
  - intros v args w' Hcreate. unfold CreateVolume, bind in Hcreate.
    destruct (getVolume_cases (VolumeInfo.Name volume) w)
      as (w1 & _ & _ & _ & [Hget | [[_ Hget] | (v0 & _ & Hget)]]);
      rewrite Hget in Hcreate; simpl in Hcreate.
    + destruct (setVolume_cases volume w1) as [(w2 & Hset & _) | (w2 & Hset & _)];
        rewrite Hset in Hcreate; discriminate.
    + destruct (setVolume_cases volume w1) as [(w2 & Hset & _) | (w2 & Hset & _)];
        rewrite Hset in Hcreate; discriminate.
    + exists v0. unfold ret in Hcreate. by simplify_eq.
Qed.

Lemma rmVolume_removes (name : string) (w w' : World) :
  rmVolume name w = (Done None, w') → volumes w' !! name = None.
Proof.
  destruct w as [vs fl tr ck]. unfold rmVolume, bind, served, ret. simpl.
  destruct fl as [|[] fs]; simpl; destruct (vs !! name) eqn:E; intros H;
    simplify_eq; simpl; apply lookup_delete_eq.
Qed.

(** C4. UpdateVolume on a name without a record (never created, or removed
    by DeleteVolume) fails with the does-not-exist error and leaves the
    records of the store as they are. *)
Theorem UpdateVolume_absent (volume : VolumeInfo.t) (w : World) :
  (volumes w !! VolumeInfo.Name volume = None ∨
   ∃ w0, DeleteVolume (VolumeInfo.Name volume) w0 = (Done None, w)) →
  ∃ w',
    UpdateVolume volume w =
      (Done (Some (Errorf "cannot update volume %v because it doesn't exists %+v"
                     [AString (VolumeInfo.Name volume); AVolume None])), w') ∧
    volumes w' = volumes w.
Proof.
  intros H.
  assert (Habs : volumes w !! VolumeInfo.Name volume = None).
  { destruct H as [H | [w0 H]]; [done|]. by eapply rmVolume_removes. }
  unfold UpdateVolume, bind.
  destruct (getVolume_cases (VolumeInfo.Name volume) w)
    as (w1 & Hvs & _ & _ & [Hget | [[_ Hget] | (v0 & Hv0 & _)]]).
  - rewrite Hget. eauto.
  - rewrite Hget. eauto.
  - congruence.
Qed.

(** ** MarkBadReplica *)

Section MarkBad.

Context (env : Env).

(** What the range loop of MarkBadReplica selects: the first visited entry
    whose Name is the wanted one. *)
Lemma range_finds_match (replicas : gmap string ReplicaInfo.t) (name : string) :
  (∀ l, rangeOrder env l ≡ₚ l) →
  (∃ k0 r0, replicas !! k0 = Some r0 ∧ ReplicaInfo.Name r0 = name) →
  ∃ k r,
    List.find (λ kr, String.eqb (ReplicaInfo.Name kr.2) name)
      (rangeOrder env (map_to_list replicas)) = Some (k, r) ∧
    replicas !! k = Some r ∧ ReplicaInfo.Name r = name.
Proof.
  intros Hperm (k0 & r0 & Hk0 & Hname).
  destruct (List.find (λ kr, String.eqb (ReplicaInfo.Name kr.2) name)
              (rangeOrder env (map_to_list replicas))) as [[k r]|] eqn:Hfind.
  - apply find_some in Hfind as [Hin Heq]. simpl in Heq.
    exists k, r. split; [done|]. split.
    + apply elem_of_map_to_list. rewrite <- (Hperm (map_to_list replicas)).
      by apply list_elem_of_In.
    + by apply String.eqb_eq.
  - exfalso.
    assert (Hin : In (k0, r0) (rangeOrder env (map_to_list replicas))).
    { apply list_elem_of_In. rewrite (Hperm (map_to_list replicas)).
      by apply elem_of_map_to_list. }
    apply (find_none _ _ Hfind) in Hin. simpl in Hin.
    rewrite Hname, String.eqb_refl in Hin. discriminate.
Qed.

(** C6. When the store serves its requests, [v] is the record stored under
    its name and some entry of [v.Replicas] has the Name of the replica
    argument, MarkBadReplica persists a volume in which one such entry
    carries a BadTimestamp that is not zero and not before the instant the
    call began, and in which every other replica entry (and every other
    field) is as in [v]. *)
Theorem MarkBadReplica_stamps_match (v : VolumeInfo.t) (replica : ReplicaInfo.t)
    (w : World) :
  (∀ l, rangeOrder env l ≡ₚ l) →
  faults w = [] →
  volumes w !! VolumeInfo.Name v = Some v →
  (∃ k0 r0, VolumeInfo.Replicas v !! k0 = Some r0 ∧
            ReplicaInfo.Name r0 = ReplicaInfo.Name replica) →
  (0 < clock w)%N →
  ∃ w' v' k r t,
    MarkBadReplica env (VolumeInfo.Name v) replica w = (Done None, w') ∧
    volumes w' !! VolumeInfo.Name v = Some v' ∧
    VolumeInfo.Replicas v !! k = Some r ∧
    ReplicaInfo.Name r = ReplicaInfo.Name replica ∧
    VolumeInfo.Replicas v' !! k = Some (ReplicaInfo.mk (ReplicaInfo.InstanceInfo r) t) ∧
    t ≠ 0%N ∧ (clock w ≤ t)%N ∧
    (∀ k', k' ≠ k → VolumeInfo.Replicas v' !! k' = VolumeInfo.Replicas v !! k') ∧
    VolumeInfo.Name v' = VolumeInfo.Name v ∧
    VolumeInfo.Size v' = VolumeInfo.Size v ∧
    VolumeInfo.LonghornImage v' = VolumeInfo.LonghornImage v.
Proof.
  intros Hperm Hfaults Hstored Hmatch Hclock.
  destruct (range_finds_match (VolumeInfo.Replicas v) (ReplicaInfo.Name replica)
              Hperm Hmatch) as (k & r & Hfind & Hk & Hname).
  set (t := (clock w + latency env (clock w))%N).
  set (v' := putReplica v k (stamp r t)).
  exists (mkWorld (<[VolumeInfo.Name v := v']> (volumes w)) [] (trace w) t), v', k, r, t.
  split.
  - unfold MarkBadReplica, bind.
    rewrite (getVolume_healthy _ w Hfaults), Hstored. simpl.
    rewrite Hfind. unfold time_Now, ret. fold t. fold v'.
    unfold UpdateVolume, bind.
    rewrite getVolume_healthy by done. simpl. rewrite Hstored.
    rewrite setVolume_healthy by done. simpl. by rewrite Hfaults.
  - simpl. split; [by rewrite lookup_insert_eq|].
    split; [done|]. split; [done|].
    split; [by rewrite lookup_insert_eq|].
    split; [lia|]. split; [lia|].
    split; [|done]. intros k' Hne. by rewrite lookup_insert_ne.
Qed.

End MarkBad.

(** ** The local executor *)

Section Executor.

Context (env : Env) (d : dockerOrc.t).

(** C7. ProcessSchedule fails with the wrong-orchestrator error when the
    item's orchestrator tag is not this engine's; it fails when the instance
    ID is empty; it fails when the action is none of the five known ones,
    with the unknown-action error once the tag, the payload and the ID have
    passed; and an item that passes these checks is handed to the handler of
    its action. *)
Theorem ProcessSchedule_dispatch (item : ScheduleItem.t) (w : World) :
  let orchestrator := ScheduleData.Orchestrator (ScheduleItem.Data item) in
  let payload := ScheduleData.Data (ScheduleItem.Data item) in
  let id := ScheduleInstance.ID (ScheduleItem.Instance item) in
  let type := ScheduleInstance.Type_ (ScheduleItem.Instance item) in
  let unknown :=
    Errorf "Cannot find specified action %v" [AAction (ScheduleItem.Action item)] in
  (orchestrator ≠ OrcName →
   ProcessSchedule env d item w =
     (Done (None, Some (Errorf "received request for the wrong orchestrator %v"
                          [AString orchestrator])), w)) ∧
  (id = "" → ∃ e, ProcessSchedule env d item w = (Done (None, Some e), w)) ∧
  (∀ raw, ScheduleItem.Action item = ScheduleActionOther raw →
     ∃ e, ProcessSchedule env d item w = (Done (None, Some e), w) ∧
          (orchestrator = OrcName → (unmarshalPayload env payload).2 = None →
           id ≠ "" → e = unknown)) ∧
  (∀ data,
     orchestrator = OrcName → unmarshalPayload env payload = (data, None) →
     id ≠ "" →
     ProcessSchedule env d item w =
       match ScheduleItem.Action item with
       | ScheduleActionCreateController => createController env d data w
       | ScheduleActionCreateReplica => createReplica env d data w
       | ScheduleActionStartInstance => startInstance env d id type w
       | ScheduleActionStopInstance => stopInstance env d id type w
       | ScheduleActionDeleteInstance => removeInstance env id type w
       | ScheduleActionOther _ => (Done (None, Some unknown), w)
       end).
Proof.
  intros orchestrator payload id type unknown.
  unfold ProcessSchedule. fold orchestrator payload id type.
  destruct (String.eqb orchestrator OrcName) eqn:Horc; simpl.
  - apply String.eqb_eq in Horc.
    destruct (unmarshalPayload env payload) as [data [e|]] eqn:Hdec; simpl.
    + repeat split; try done; eauto.
      intros raw _. eexists. split; [done|]. intros _ [=].
    + destruct (String.eqb id "") eqn:Hid.
      * apply String.eqb_eq in Hid. repeat split; try done; eauto.
        intros raw _. eexists. split; [done|]. done.
      * apply String.eqb_neq in Hid. split; [done|]. split; [done|]. split.
        -- intros raw Hraw. rewrite Hraw. eexists. split; [done|].
           intros _ _ _. subst unknown. by rewrite Hraw.
        -- intros data' _ [= <-] _.
           by destruct (ScheduleItem.Action item).
  - apply String.eqb_neq in Horc. repeat split; try done; eauto.
    intros raw _. eexists. split; [done|]. done.
Qed.

End Executor.

(** ** Action handlers *)

Lemma issued_issued (w : World) (evs evs' : list Event) :
  issued (issued w evs) evs' = issued w (evs ++ evs').
Proof. unfold issued. simpl. by rewrite app_assoc. Qed.

Lemma trace_issued (w : World) (evs : list Event) :
  trace (issued w evs) = trace w ++ evs.
Proof. reflexivity. Qed.

Lemma issued_nil (w : World) : issued w [] = w.
Proof. destruct w. unfold issued. simpl. by rewrite app_nil_r. Qed.

#[local] Set Warnings "-clear-no-such-hyp".

(* no Schedule call among the listed ones *)
Ltac no_schedule :=
  let item := fresh "item" in
  let Hin := fresh "Hin" in
  intros item Hin;
  rewrite ?elem_of_app, ?elem_of_cons, ?elem_of_nil in Hin;
  naive_solver.

Section Handlers.

Context (env : Env) (d : dockerOrc.t).

Lemma removeInstance_run (id : string) (type : InstanceType) (w : World) :
  removeInstance env id type w =
    (Done match ContainerRemove env (trace w) id with
          | Some e => (None, Some (Wrapf e "Fail to remove instance %v" [AString id]))
          | None => (Some (InstanceInfo.mk id type "" "" "" false), None)
          end,
     issued w [EvRemove id true]).
Proof.
  unfold removeInstance, cli_ContainerRemove, bind, history, emit, ret. simpl.
  by destruct (ContainerRemove env (trace w) id).
Qed.

Lemma generateInstanceInfo_run (id : string) (type : InstanceType) (w : World) :
  generateInstanceInfo env d id type w =
    (Done match ContainerInspect env (trace w) id with
          | (_, Some e) => (None, Some (Wrap e "fail to inspect replica container"))
          | (inspectJSON, None) =>
              (Some (InstanceInfo.mk (ContainerJSON.ID inspectJSON) type
                       (strings_TrimPrefix (ContainerJSON.Name inspectJSON) "/")
                       (GetCurrentHostID d)
                       (ContainerJSON.IPAddress inspectJSON)
                       (ContainerJSON.Running inspectJSON)),
               None)
          end,
     issued w [EvInspect id]).
Proof.
  unfold generateInstanceInfo, cli_ContainerInspect, bind, history, emit, ret. simpl.
  by destruct (ContainerInspect env (trace w) id) as [j [e|]].
Qed.

Lemma startInstance_run (id : string) (type : InstanceType) (w : World) :
  startInstance env d id type w =
    match ContainerStart env (trace w) id with
    | Some e =>
        (Done (None, Some (Wrapf e "fail to start instance '%v' type %v"
                             [AString id; AInstanceType type])),
         issued w [EvStart id])
    | None => generateInstanceInfo env d id type (issued w [EvStart id])
    end.
Proof.
  unfold startInstance, cli_ContainerStart, bind, history, emit, ret. simpl.
  by destruct (ContainerStart env (trace w) id).
Qed.

Lemma stopInstance_run (id : string) (type : InstanceType) (w : World) :
  stopInstance env d id type w =
    match ContainerStop env (trace w) id with
    | Some e =>
        (Done (None, Some (Wrapf e "fail to start instance '%v'" [AString id])),
         issued w [EvStop id])
    | None => generateInstanceInfo env d id type (issued w [EvStop id])
    end.
Proof.
  unfold stopInstance, cli_ContainerStop, bind, history, emit, ret. simpl.
  by destruct (ContainerStop env (trace w) id).
Qed.

(** startInstance returns a value and an error never both, and succeeds
    with an instance. *)
Lemma startInstance_result (id : string) (type : InstanceType) (w : World) :
  ∃ evs,
    (∀ item, EvSchedule item ∉ evs) ∧
    ((∃ e, startInstance env d id type w = (Done (None, Some e), issued w evs)) ∨
     (∃ i, startInstance env d id type w = (Done (Some i, None), issued w evs))).
Proof.
  rewrite startInstance_run.
  destruct (ContainerStart env (trace w) id).
  - exists [EvStart id]. split; [no_schedule|]. eauto.
  - rewrite generateInstanceInfo_run, issued_issued. simpl.
    exists [EvStart id; EvInspect id]. split; [no_schedule|].
    destruct (ContainerInspect env _ id) as [j [e|]]; eauto.
Qed.

Lemma cli_ContainerCreate_run (config : Config.t) (hostConfig : HostConfig.t)
    (name : string) (w : World) :
  cli_ContainerCreate env config hostConfig name w =
    (Done (ContainerCreate env (trace w) config hostConfig name),
     issued w [EvCreate config hostConfig name]).
Proof. reflexivity. Qed.

Lemma util_WaitForAPI_run (url : string) (timeout : Z) (w : World) :
  util_WaitForAPI env url timeout w =
    (Done (WaitForAPI env (trace w) url timeout), issued w [EvWaitForAPI url timeout]).
Proof. reflexivity. Qed.

Lemma util_WaitForDevice_run (path : string) (timeout : Z) (w : World) :
  util_WaitForDevice env path timeout w =
    (Done (WaitForDevice env (trace w) path timeout),
     issued w [EvWaitForDevice path timeout]).
Proof. reflexivity. Qed.

Lemma controllerCmd_flat (acc addresses : list string) :
  fold_left (λ cmd address, cmd ++ ["--replica"; address]) addresses acc =
  acc ++ flat_map (λ address, ["--replica"; address]) addresses.
Proof.
  revert acc. induction addresses as [|a l IH]; intros acc; simpl.
  - by rewrite app_nil_r.
  - rewrite IH, <- app_assoc. reflexivity.
Qed.

Lemma appendReplicaAddress_fold (f : string * ReplicaInfo.t → string)
    (l : list (string * ReplicaInfo.t)) (data : dockerScheduleData.t) :
  fold_left (λ data kr, appendReplicaAddress data (f kr)) l data =
    dockerScheduleData.mk
      (dockerScheduleData.InstanceName data)
      (dockerScheduleData.VolumeName data)
      (dockerScheduleData.VolumeSize data)
      (dockerScheduleData.LonghornImage data)
      (dockerScheduleData.ReplicaAddresses data ++ map f l).
Proof.
  revert data. induction l as [|kr l IH]; intros data; simpl.
  - rewrite app_nil_r. by destruct data.
  - rewrite IH. simpl. by rewrite <- app_assoc.
Qed.

Lemma controllerPayload_addresses (volume : VolumeInfo.t)
    (volumeName controllerName : string) (replicas : gmap string ReplicaInfo.t) :
  controllerPayload env volume volumeName controllerName replicas =
    dockerScheduleData.mk controllerName volumeName ""
      (VolumeInfo.LonghornImage volume)
      (map (λ kr, "tcp://" +:+ ReplicaInfo.Address kr.2 +:+ ":9502")
         (rangeOrder env (map_to_list replicas))).
Proof. unfold controllerPayload. by rewrite appendReplicaAddress_fold. Qed.

(** Every handler leaves the store and the clock alone and only adds calls
    to the trace, none of them a Schedule call; createController and
    createReplica begin with the container create. *)
Lemma createController_issues (data : dockerScheduleData.t) (w : World) :
  ∃ r evs,
    createController env d data w =
      (r, issued w (EvCreate (controllerConfig data) controllerHostConfig
                      (dockerScheduleData.InstanceName data) :: evs)) ∧
    (∀ item, EvSchedule item ∉ evs).
Proof.
  unfold createController, bind. rewrite cli_ContainerCreate_run.
  set (create := EvCreate _ _ _).
  destruct (ContainerCreate env _ _ _ _) as [cid [e|]]; cbn.
  { exists (Done (None, Some (Wrap e "fail to create controller container"))), [].
    split; [done|]. no_schedule. }
  destruct (startInstance_result cid InstanceTypeController (issued w [create]))
    as (evs & Hevs & [[e Hstart] | [i Hstart]]); rewrite Hstart, issued_issued; cbn.
  { rewrite removeInstance_run, issued_issued. cbn.
    eexists _, _. split; [done|].
    no_schedule. }
  rewrite util_WaitForAPI_run, issued_issued.
  destruct (WaitForAPI env _ _ _); cbn.
  { eexists _, _. split; [done|].
    no_schedule. }
  rewrite util_WaitForDevice_run, issued_issued. cbn.
  destruct (WaitForDevice env _ _ _); cbn;
    (eexists _, _; split; [done|]); no_schedule.
Qed.

Lemma createReplica_issues (data : dockerScheduleData.t) (w : World) :
  ∃ r evs,
    createReplica env d data w =
      (r, issued w (EvCreate (replicaConfig data) replicaHostConfig
                      (dockerScheduleData.InstanceName data) :: evs)) ∧
    (∀ item, EvSchedule item ∉ evs).
Proof.
  unfold createReplica, bind. rewrite cli_ContainerCreate_run.
  set (create := EvCreate _ _ _).
  destruct (ContainerCreate env _ _ _ _) as [cid [e|]]; cbn.
  { exists (Done (None, Some (Wrap e "fail to create replica container"))), [].
    split; [done|]. no_schedule. }
  destruct (startInstance_result cid InstanceTypeReplica (issued w [create]))
    as (evs & Hevs & [[e Hstart] | [i Hstart]]); rewrite Hstart, issued_issued; cbn.
  { rewrite removeInstance_run, issued_issued. cbn.
    eexists _, _. split; [done|].
    no_schedule. }
  eexists _, _. split; [done|]. done.
Qed.

(** C8. The first call createController issues is the container create,
    and the command it passes is launch controller --listen 0.0.0.0:9501
    --frontend tgt, then one --replica flag per address of the payload, then
    the volume name.  The payload that prepareCreateController marshals for a
    stored volume names the volume and lists one endpoint
    tcp://<address>:9502 per replica, in the order the range loop visits
    the replicas. *)
Theorem createController_command (data : dockerScheduleData.t) (w : World) :
  let cmd :=
    ["launch"; "controller"; "--listen"; "0.0.0.0:9501"; "--frontend"; "tgt"]
    ++ flat_map (λ address, ["--replica"; address])
         (dockerScheduleData.ReplicaAddresses data)
    ++ [dockerScheduleData.VolumeName data] in
  (∃ r evs,
     createController env d data w =
       (r, issued w
             (EvCreate (Config.mk [] (dockerScheduleData.LonghornImage data) [] cmd)
                       (HostConfig.mk ["/dev:/host/dev"; "/proc:/host/proc"] true)
                       (dockerScheduleData.InstanceName data) :: evs))) ∧
  (∀ volumeName controllerName replicas volume w1,
     getVolume volumeName w = (Done (Some volume, None), w1) →
     ∃ payload,
       dockerScheduleData.VolumeName payload = volumeName ∧
       dockerScheduleData.ReplicaAddresses payload =
         map (λ kr, "tcp://" +:+ ReplicaInfo.Address kr.2 +:+ ":9502")
           (rangeOrder env (map_to_list replicas)) ∧
       prepareCreateController env volumeName controllerName replicas w =
         (Done match json_Marshal env payload with
               | (bData, None) => (Some (ScheduleData.mk OrcName bData), None)
               | (_, Some e) =>
                   (None, Some (Wrapf e "unable to marshall %+v" [APayload payload]))
               end, w1)).
Proof.
  intros cmd. split.
  - assert (Hcmd : controllerConfig data =
                   Config.mk [] (dockerScheduleData.LonghornImage data) [] cmd).
    { unfold controllerConfig, controllerCmd. rewrite controllerCmd_flat.
      subst cmd. by rewrite <- !app_assoc. }
    destruct (createController_issues data w) as (r & evs & Hrun & _).
    rewrite Hcmd in Hrun. eauto.
  - intros volumeName controllerName replicas volume w1 Hget.
    exists (controllerPayload env volume volumeName controllerName replicas).
    rewrite controllerPayload_addresses at 1 2. cbn.
    split; [done|]. split; [done|].
    unfold prepareCreateController, bind. rewrite Hget. cbn.
    by destruct (json_Marshal env _) as [bData [e|]].
Qed.

(** C2. When the container was created and starting it fails, createController
    issues a remove for the created container and returns the start error,
    wrapped; so does createReplica.  The start step fails when the runtime
    refuses the start, or when the inspection that follows it fails. *)
Theorem create_start_failure_removes (data : dockerScheduleData.t) (w : World)
    (cid : string) :
  let name := dockerScheduleData.InstanceName data in
  let createC := EvCreate (controllerConfig data) controllerHostConfig name in
  let createR := EvCreate (replicaConfig data) replicaHostConfig name in
  (ContainerCreate env (trace w) (controllerConfig data) controllerHostConfig name
     = (cid, None) →
   (∀ i e w2,
      startInstance env d cid InstanceTypeController (issued w [createC])
        = (Done (i, Some e), w2) →
      createController env d data w =
        (Done (None, Some (Wrap e "fail to start controller container")),
         issued w2 [EvRemove cid true])) ∧
   (∀ e0,
      ContainerStart env (trace w ++ [createC]) cid = Some e0 →
      createController env d data w =
        (Done (None,
               Some (Wrap (Wrapf e0 "fail to start instance '%v' type %v"
                             [AString cid; AInstanceType InstanceTypeController])
                       "fail to start controller container")),
         issued w [createC; EvStart cid; EvRemove cid true]))) ∧
  (ContainerCreate env (trace w) (replicaConfig data) replicaHostConfig name
     = (cid, None) →
   (∀ i e w2,
      startInstance env d cid InstanceTypeReplica (issued w [createR])
        = (Done (i, Some e), w2) →
      createReplica env d data w =
        (Done (None, Some (Wrap e "fail to start replica container")),
         issued w2 [EvRemove cid true])) ∧
   (∀ e0,
      ContainerStart env (trace w ++ [createR]) cid = Some e0 →
      createReplica env d data w =
        (Done (None,
               Some (Wrap (Wrapf e0 "fail to start instance '%v' type %v"
                             [AString cid; AInstanceType InstanceTypeReplica])
                       "fail to start replica container")),
         issued w [createR; EvStart cid; EvRemove cid true]))).
Proof.
  intros name createC createR.
  assert (HC : ContainerCreate env (trace w) (controllerConfig data)
                 controllerHostConfig name = (cid, None) →
               ∀ i e w2,
                 startInstance env d cid InstanceTypeController (issued w [createC])
                   = (Done (i, Some e), w2) →
                 createController env d data w =
                   (Done (None, Some (Wrap e "fail to start controller container")),
                    issued w2 [EvRemove cid true])).
  { intros Hcreate i e w2 Hstart.
    unfold createController, bind. rewrite cli_ContainerCreate_run.
    fold name. rewrite Hcreate. fold createC. rewrite Hstart. cbn.
    by rewrite removeInstance_run. }
  assert (HR : ContainerCreate env (trace w) (replicaConfig data)
                 replicaHostConfig name = (cid, None) →
               ∀ i e w2,
                 startInstance env d cid InstanceTypeReplica (issued w [createR])
                   = (Done (i, Some e), w2) →
                 createReplica env d data w =
                   (Done (None, Some (Wrap e "fail to start replica container")),
                    issued w2 [EvRemove cid true])).
  { intros Hcreate i e w2 Hstart.
    unfold createReplica, bind. rewrite cli_ContainerCreate_run.
    fold name. rewrite Hcreate. fold createR. rewrite Hstart. cbn.
    by rewrite removeInstance_run. }
  split; intros Hcreate;
    (split; [intros i e w2 Hstart; first [by eapply HC | by eapply HR]|]);
    intros e0 Hfail.
  - rewrite (HC Hcreate None
               (Wrapf e0 "fail to start instance '%v' type %v"
                  [AString cid; AInstanceType InstanceTypeController])
               (issued (issued w [createC]) [EvStart cid])).
    + by rewrite !issued_issued.
    + by rewrite startInstance_run, trace_issued, Hfail.
  - rewrite (HR Hcreate None
               (Wrapf e0 "fail to start instance '%v' type %v"
                  [AString cid; AInstanceType InstanceTypeReplica])
               (issued (issued w [createR]) [EvStart cid])).
    + by rewrite !issued_issued.
    + by rewrite startInstance_run, trace_issued, Hfail.
Qed.

Lemma ProcessSchedule_issues (item : ScheduleItem.t) (w : World) :
  ∃ r evs,
    ProcessSchedule env d item w = (r, issued w evs) ∧
    (∀ item', EvSchedule item' ∉ evs).
Proof.
  assert (Hnone : ∀ r : Outcome (goret InstanceInfo.t),
            ∃ r' evs, (r, w) = (r', issued w evs) ∧ ∀ item', EvSchedule item' ∉ evs).
  { intros r. exists r, []. rewrite issued_nil. split; [done|]. no_schedule. }
  unfold ProcessSchedule.
  destruct (negb _); [apply Hnone|].
  destruct (unmarshalPayload env _) as [data [e|]]; [apply Hnone|].
  destruct (String.eqb _ ""); [apply Hnone|].
  destruct (ScheduleItem.Action item); [| | | | |apply Hnone].
  - destruct (createController_issues data w) as (r & evs & Hrun & Hevs).
    eexists _, _. split; [done|]. no_schedule.
  - destruct (createReplica_issues data w) as (r & evs & Hrun & Hevs).
    eexists _, _. split; [done|]. no_schedule.
  - destruct (startInstance_result (ScheduleInstance.ID (ScheduleItem.Instance item))
                (ScheduleInstance.Type_ (ScheduleItem.Instance item)) w)
      as (evs & Hevs & [[e Hrun] | [i Hrun]]); eauto.
  - rewrite stopInstance_run.
    destruct (ContainerStop env _ _).
    + eexists _, _. split; [done|]. no_schedule.
    + rewrite generateInstanceInfo_run, issued_issued.
      eexists _, _. split; [done|]. no_schedule.
  - rewrite removeInstance_run. eexists _, _. split; [done|]. no_schedule.
Qed.

Lemma Schedule_issues (item : ScheduleItem.t) (w : World) :
  ∃ r evs,
    Schedule env d item w = (r, issued w (EvSchedule item :: evs)) ∧
    (∀ item', EvSchedule item' ∉ evs).
Proof.
  unfold Schedule, bind, emit, ret. cbn.
  change (mkWorld (volumes w) (faults w) (trace w ++ [EvSchedule item]) (clock w))
    with (issued w [EvSchedule item]).
  destruct (String.eqb _ (GetCurrentHostID d)).
  - destruct (ProcessSchedule_issues item (issued w [EvSchedule item]))
      as (r & evs & Hrun & Hevs).
    rewrite Hrun, issued_issued. eauto.
  - eexists _, []. split; [done|]. no_schedule.
Qed.

(** C3. When the container was created and started (the start call and the
    inspection after it succeeded) and the wait for the API, or after it the
    wait for the device, reports a timeout, createController returns that
    error, wrapped, and the calls it has issued are the create, the start,
    the inspection and the waits: no stop and no remove. *)
Theorem createController_wait_failure_no_teardown (data : dockerScheduleData.t)
    (w : World) (cid : string) (inspectJSON : ContainerJSON.t) :
  let name := dockerScheduleData.InstanceName data in
  let create := EvCreate (controllerConfig data) controllerHostConfig name in
  let started := [create; EvStart cid; EvInspect cid] in
  let url := ("http://" +:+ ContainerJSON.IPAddress inspectJSON +:+ ":9501") +:+ "/v1" in
  let device := getDeviceName env (dockerScheduleData.VolumeName data) in
  let waitAPI := EvWaitForAPI url WaitAPITimeout in
  let waitDevice := EvWaitForDevice device WaitDeviceTimeout in
  ContainerCreate env (trace w) (controllerConfig data) controllerHostConfig name
    = (cid, None) →
  ContainerStart env (trace w ++ [create]) cid = None →
  ContainerInspect env (trace w ++ [create; EvStart cid]) cid = (inspectJSON, None) →
  (∀ e,
     WaitForAPI env (trace w ++ started) url WaitAPITimeout = Some e →
     createController env d data w =
       (Done (None, Some (Wrapf e "fail to wait for api endpoint at %v" [AString url])),
        issued w (started ++ [waitAPI])) ∧
     Forall (λ ev, isTeardown ev = false) (started ++ [waitAPI])) ∧
  (∀ e,
     WaitForAPI env (trace w ++ started) url WaitAPITimeout = None →
     WaitForDevice env (trace w ++ started ++ [waitAPI]) device WaitDeviceTimeout
       = Some e →
     createController env d data w =
       (Done (None, Some (Wrap e "fail to wait for device")),
        issued w (started ++ [waitAPI; waitDevice])) ∧
     Forall (λ ev, isTeardown ev = false) (started ++ [waitAPI; waitDevice])).
Proof.
  intros name create started url device waitAPI waitDevice Hcreate Hstart Hinspect.
  assert (Hrun :
    createController env d data w =
      match WaitForAPI env (trace w ++ started) url WaitAPITimeout with
      | Some e =>
          (Done (None, Some (Wrapf e "fail to wait for api endpoint at %v"
                               [AString url])),
           issued w (started ++ [waitAPI]))
      | None =>
          match WaitForDevice env (trace w ++ started ++ [waitAPI])
                  device WaitDeviceTimeout with
          | Some e =>
              (Done (None, Some (Wrap e "fail to wait for device")),
               issued w (started ++ [waitAPI; waitDevice]))
          | None =>
              (Done (Some (InstanceInfo.mk (ContainerJSON.ID inspectJSON)
                             InstanceTypeController
                             (strings_TrimPrefix (ContainerJSON.Name inspectJSON) "/")
                             (GetCurrentHostID d)
                             ("http://" +:+ ContainerJSON.IPAddress inspectJSON
                                +:+ ":9501")
                             (ContainerJSON.Running inspectJSON)), None),
               issued w (started ++ [waitAPI; waitDevice]))
          end
      end).
  { unfold createController, bind. rewrite cli_ContainerCreate_run.
    fold name. rewrite Hcreate. fold create.
    rewrite startInstance_run, trace_issued, Hstart.
    rewrite generateInstanceInfo_run, !issued_issued, trace_issued. cbn.
    rewrite Hinspect. cbn.
    rewrite util_WaitForAPI_run, issued_issued, trace_issued. cbn.
    fold url waitAPI.
    change (trace w ++ [create; EvStart cid; EvInspect cid])
      with (trace w ++ started).
    destruct (WaitForAPI env (trace w ++ started) url WaitAPITimeout); [done|].
    rewrite util_WaitForDevice_run, issued_issued, trace_issued. cbn.
    fold device waitDevice.
    by destruct (WaitForDevice env _ device WaitDeviceTimeout). }
  split.
  - intros e Hapi. rewrite Hrun, Hapi. split; [done|].
    repeat constructor.
  - intros e Hapi Hdevice. rewrite Hrun, Hapi, Hdevice. split; [done|].
    repeat constructor.
Qed.

End Handlers.

(** ** Instance creation *)

Section Creation.

Context (env : Env) (d : dockerOrc.t).

Lemma prepareCreateController_trace (volumeName controllerName : string)
    (replicas : gmap string ReplicaInfo.t) (w w1 : World)
    (r : Outcome (goret ScheduleData.t)) :
  prepareCreateController env volumeName controllerName replicas w = (r, w1) →
  trace w1 = trace w.
Proof.
  unfold prepareCreateController, bind.
  destruct (getVolume_cases volumeName w)
    as (w' & _ & Htr & _ & [Hget | [[_ Hget] | (v & _ & Hget)]]);
    rewrite Hget; cbn; try (intros [= _ <-]; done).
  destruct (json_Marshal env _) as [bData [e|]]; by intros [= _ <-].
Qed.

Lemma prepareCreateReplica_trace (volumeName replicaName : string) (w w1 : World)
    (r : Outcome (goret ScheduleData.t)) :
  prepareCreateReplica env volumeName replicaName w = (r, w1) →
  trace w1 = trace w.
Proof.
  unfold prepareCreateReplica, bind.
  destruct (getVolume_cases volumeName w)
    as (w' & _ & Htr & _ & [Hget | [[_ Hget] | (v & _ & Hget)]]);
    rewrite Hget; cbn; try (intros [= _ <-]; done).
  destruct (VolumeInfo.Size v =? 0); [by intros [= _ <-]|].
  destruct (json_Marshal env _) as [bData [e|]]; by intros [= _ <-].
Qed.

(** C9. Every Schedule Request that CreateController submits names the
    current host's UUID as its HostID, and every one that CreateReplica
    submits has an empty HostID; each submits its request as soon as the
    payload has been prepared. *)
Theorem create_request_host (w : World) :
  (∀ volumeName controllerName replicas,
     ∃ r w' evs,
       CreateController env d volumeName controllerName replicas w = (r, w') ∧
       trace w' = trace w ++ evs ∧
       (∀ item, EvSchedule item ∈ evs →
          ScheduleItem.Action item = ScheduleActionCreateController ∧
          ScheduleInstance.HostID (ScheduleItem.Instance item) = GetCurrentHostID d) ∧
       (∀ data w1,
          prepareCreateController env volumeName controllerName replicas w
            = (Done (Some data, None), w1) →
          ∃ rest,
            evs = EvSchedule
                    (ScheduleItem.mk ScheduleActionCreateController
                       (ScheduleInstance.mk controllerName InstanceTypeController
                          (GetCurrentHostID d))
                       data) :: rest)) ∧
  (∀ volumeName replicaName,
     ∃ r w' evs,
       CreateReplica env d volumeName replicaName w = (r, w') ∧
       trace w' = trace w ++ evs ∧
       (∀ item, EvSchedule item ∈ evs →
          ScheduleItem.Action item = ScheduleActionCreateReplica ∧
          ScheduleInstance.HostID (ScheduleItem.Instance item) = "") ∧
       (∀ data w1,
          prepareCreateReplica env volumeName replicaName w
            = (Done (Some data, None), w1) →
          ∃ rest,
            evs = EvSchedule
                    (ScheduleItem.mk ScheduleActionCreateReplica
                       (ScheduleInstance.mk replicaName InstanceTypeReplica "")
                       data) :: rest)).
Proof.
  split.
  - intros volumeName controllerName replicas.
    unfold CreateController. unfold bind at 1.
    destruct (prepareCreateController env volumeName controllerName replicas w)
      as [[[[data|] [e|]]|] w1] eqn:Hprep;
      pose proof (prepareCreateController_trace _ _ _ _ _ _ Hprep) as Htr; cbn.
    1,3: eexists _, w1, []; rewrite app_nil_r;
         (split; [done|]); (split; [done|]); split; [no_schedule|done].
    2,3: unfold bind, deref; eexists _, w1, []; rewrite app_nil_r;
         (split; [done|]); (split; [done|]); split; [no_schedule|done].
    unfold bind, deref.
    match goal with
    | |- context [Schedule env d ?item w1] =>
        destruct (Schedule_issues env d item w1) as (r & evs & Hrun & Hevs)
    end.
    rewrite Hrun.
    assert (∀ item, EvSchedule item ∈ evs → False) as Hnone by (intros; by eapply Hevs).
    destruct r as [[[i|] [e|]]|]; cbn;
      (eexists _, _, _; split; [done|]);
      (split; [by rewrite trace_issued, Htr|]);
      (split; [ intros item [[= ->]|Hin]%elem_of_cons; [done|by apply Hnone in Hin]
              | intros data' w1' [= <- <-]; eauto ]).
  - intros volumeName replicaName.
    unfold CreateReplica. unfold bind at 1.
    destruct (prepareCreateReplica env volumeName replicaName w)
      as [[[[data|] [e|]]|] w1] eqn:Hprep;
      pose proof (prepareCreateReplica_trace _ _ _ _ _ Hprep) as Htr; cbn.
    1,3: eexists _, w1, []; rewrite app_nil_r;
         (split; [done|]); (split; [done|]); split; [no_schedule|done].
    2,3: unfold bind, deref; eexists _, w1, []; rewrite app_nil_r;
         (split; [done|]); (split; [done|]); split; [no_schedule|done].
    unfold bind, deref.
    match goal with
    | |- context [Schedule env d ?item w1] =>
        destruct (Schedule_issues env d item w1) as (r & evs & Hrun & Hevs)
    end.
    rewrite Hrun.
    assert (∀ item, EvSchedule item ∈ evs → False) as Hnone by (intros; by eapply Hevs).
    destruct r as [[[i|] [e|]]|]; cbn;
      (eexists _, _, _; split; [done|]);
      (split; [by rewrite trace_issued, Htr|]);
      (split; [ intros item [[= ->]|Hin]%elem_of_cons; [done|by apply Hnone in Hin]
              | intros data' w1' [= <- <-]; eauto ]).
Qed.

(** On a volume of Size 0 prepareCreateReplica wraps the error of the read,
    which is nil at that point, and errors.Wrap of nil is nil: it returns
    neither payload nor error, and CreateReplica dereferences the nil
    payload. *)
Lemma CreateReplica_zero_size (volumeName replicaName : string) (v : VolumeInfo.t)
    (w : World) :
  faults w = [] →
  volumes w !! volumeName = Some v →
  VolumeInfo.Size v = 0 →
  prepareCreateReplica env volumeName replicaName w = (Done (None, None), w) ∧
  CreateReplica env d volumeName replicaName w = (Panic, w).
Proof.
  intros Hfaults Hstored Hsize.
  assert (Hprep : prepareCreateReplica env volumeName replicaName w
                  = (Done (None, None), w)).
  { unfold prepareCreateReplica, bind.
    rewrite (getVolume_healthy _ w Hfaults), Hstored. cbn. by rewrite Hsize. }
  split; [done|]. unfold CreateReplica, bind. by rewrite Hprep.
Qed.

(** C1, as amended. The zero-size guard belongs to CreateReplica: for a
    stored volume whose Size is 0 it returns no replica and issues no call
    at all, neither to the scheduler nor to the Container Runtime.
    CreateController has no such guard: for a stored volume of any Size,
    zero included, it submits its create-controller request to the
    scheduler. *)
Theorem zero_size_guard_is_on_replica (volumeName : string) (v : VolumeInfo.t)
    (w : World) :
  volumes w !! volumeName = Some v →
  (VolumeInfo.Size v = 0 →
   ∀ replicaName,
     ∃ r w',
       CreateReplica env d volumeName replicaName w = (r, w') ∧
       trace w' = trace w ∧
       ∀ i e, r ≠ Done (Some i, e)) ∧
  (faults w = [] →
   ∀ controllerName replicas bData,
     json_Marshal env (controllerPayload env v volumeName controllerName replicas)
       = (bData, None) →
     ∃ r evs,
       CreateController env d volumeName controllerName replicas w =
         (r, issued w
               (EvSchedule
                  (ScheduleItem.mk ScheduleActionCreateController
                     (ScheduleInstance.mk controllerName InstanceTypeController
                        (GetCurrentHostID d))
                     (ScheduleData.mk OrcName bData)) :: evs))).
Proof.
  intros Hstored. split.
  - intros Hsize replicaName.
    unfold CreateReplica, prepareCreateReplica, bind.
    destruct (getVolume_cases volumeName w)
      as (w' & _ & Htr & _ & [Hget | [[Habs _] | (v' & Hv' & Hget)]]).
    + rewrite Hget. cbn. eexists _, w'. split; [done|]. split; [done|]. done.
    + congruence.
    + rewrite Hget. cbn. assert (v' = v) as -> by congruence.
      rewrite Hsize. cbn. eexists _, w'. split; [done|]. split; [done|]. done.
  - intros Hfaults controllerName replicas bData Hmarshal.
    unfold CreateController, prepareCreateController, bind.
    rewrite (getVolume_healthy _ w Hfaults), Hstored. cbn.
    rewrite Hmarshal. cbn.
    match goal with
    | |- context [Schedule env d ?item w] =>
        destruct (Schedule_issues env d item w) as (r & evs & Hrun & _)
    end.
    rewrite Hrun. destruct r as [[[i|] [e|]]|]; cbn; eauto.
Qed.

End Creation.

(** * The properties at work in the simulated environment *)

Lemma simWorld_vol1 : volumes simWorld !! "vol1" = Some vol1.
Proof. unfold simWorld. cbn. apply lookup_insert_eq. Qed.

Lemma simWorld_vol0 : volumes simWorld !! "vol0" = Some vol0.
Proof. unfold simWorld. cbn. by rewrite lookup_insert_ne, lookup_insert_eq. Qed.

Lemma simEnv_rangeOrder (f : SimFaults) (l : list (string * ReplicaInfo.t)) :
  rangeOrder (simEnv f) l ≡ₚ l.
Proof. reflexivity. Qed.

(** C5 at work: vol1 is stored in simWorld and is not in emptyWorld. *)
Lemma CreateVolume_fresh_or_exists_witness :
  CreateVolume vol1 simWorld =
    (Done (None, Some (Errorf "volume %v already exists %+v"
                         [AString "vol1"; AVolume (Some vol1)])), simWorld) ∧
  ∃ w', CreateVolume vol1 emptyWorld = (Done (Some vol1, None), w') ∧
        volumes w' = <["vol1" := vol1]> ∅ ∧
        GetVolume "vol1" w' = (Done (Some vol1, None), w').
Proof.
  split.
  - pose proof (CreateVolume_fresh_or_exists vol1 simWorld eq_refl) as H.
    change (VolumeInfo.Name vol1) with "vol1" in H.
    rewrite simWorld_vol1 in H. exact H.
  - pose proof (CreateVolume_fresh_or_exists vol1 emptyWorld eq_refl) as H.
    change (VolumeInfo.Name vol1) with "vol1" in H.
    change (volumes emptyWorld) with (∅ : gmap string VolumeInfo.t) in H.
    rewrite lookup_empty in H. exact H.
Defined.

(** C10 at work: the read of faultyWorld goes unserved, and CreateVolume
    replaces the stored vol1. *)
Lemma CreateVolume_ignores_read_error_witness :
  volumes faultyWorld !! "vol1" = Some vol1 ∧
  getVolume "vol1" faultyWorld =
    (Done (None, Some StoreUnavailable),
     mkWorld (<["vol1" := vol1]> ∅) [] [] 1500000000000000000%N) ∧
  CreateVolume vol1_resized faultyWorld =
    (Done (Some vol1_resized, None),
     mkWorld (<["vol1" := vol1_resized]> (<["vol1" := vol1]> ∅)) [] []
       1500000000000000000%N) ∧
  ∃ v0, getVolume "vol1" simWorld = (Done (Some v0, None), simWorld).
Proof.
  split; [apply lookup_insert_eq|]. split; [reflexivity|]. split.
  - destruct (CreateVolume_ignores_read_error vol1_resized faultyWorld) as [H _].
    rewrite (H None StoreUnavailable
               (mkWorld (<["vol1" := vol1]> ∅) [] [] 1500000000000000000%N) eq_refl).
    reflexivity.
  - destruct (CreateVolume_ignores_read_error vol1 simWorld) as [_ H].
    apply (H None [AString "vol1"; AVolume (Some vol1)]).
    unfold CreateVolume, bind. change (VolumeInfo.Name vol1) with "vol1".
    rewrite getVolume_healthy by reflexivity. by rewrite simWorld_vol1.
Defined.

(** C4 at work: no volume is stored in emptyWorld, and none under vol1 once
    DeleteVolume has removed it from simWorld. *)
Lemma UpdateVolume_absent_witness :
  (∃ w', UpdateVolume vol1 emptyWorld =
           (Done (Some (Errorf "cannot update volume %v because it doesn't exists %+v"
                          [AString "vol1"; AVolume None])), w') ∧
         volumes w' = volumes emptyWorld) ∧
  (∃ w w', DeleteVolume "vol1" simWorld = (Done None, w) ∧
           UpdateVolume vol1 w =
             (Done (Some (Errorf "cannot update volume %v because it doesn't exists %+v"
                            [AString "vol1"; AVolume None])), w') ∧
           volumes w' = volumes w).
Proof.
  split.
  - apply (UpdateVolume_absent vol1 emptyWorld). left. apply lookup_empty.
  - assert (Hdel : ∃ w, DeleteVolume "vol1" simWorld = (Done None, w)).
    { unfold DeleteVolume, rmVolume, bind.
      rewrite served_healthy by reflexivity. rewrite simWorld_vol1. eauto. }
    destruct Hdel as [w Hdel]. exists w.
    destruct (UpdateVolume_absent vol1 w) as (w' & Hupd & Hvs).
    + right. exists simWorld. exact Hdel.
    + exists w'. auto.
Defined.

(** C6 at work: replica r1 of vol1 is marked. *)
Lemma MarkBadReplica_stamps_match_witness :
  ∃ w' v' k r t,
    MarkBadReplica (simEnv noFaults) (VolumeInfo.Name vol1) replica1 simWorld
      = (Done None, w') ∧
    volumes w' !! VolumeInfo.Name vol1 = Some v' ∧
    VolumeInfo.Replicas vol1 !! k = Some r ∧
    ReplicaInfo.Name r = ReplicaInfo.Name replica1 ∧
    VolumeInfo.Replicas v' !! k = Some (ReplicaInfo.mk (ReplicaInfo.InstanceInfo r) t) ∧
    t ≠ 0%N ∧ (clock simWorld ≤ t)%N ∧
    (∀ k', k' ≠ k → VolumeInfo.Replicas v' !! k' = VolumeInfo.Replicas vol1 !! k') ∧
    VolumeInfo.Name v' = VolumeInfo.Name vol1 ∧
    VolumeInfo.Size v' = VolumeInfo.Size vol1 ∧
    VolumeInfo.LonghornImage v' = VolumeInfo.LonghornImage vol1.
Proof.
  apply (MarkBadReplica_stamps_match (simEnv noFaults) vol1 replica1 simWorld).
  - apply simEnv_rangeOrder.
  - reflexivity.
  - apply simWorld_vol1.
  - exists "r1", replica1. split; [apply lookup_insert_eq | reflexivity].
  - reflexivity.
Defined.

(** C7 at work: an item for another orchestrator, an item without instance
    ID, an item with an action of its own, and a start request. *)
Lemma ProcessSchedule_dispatch_witness :
  ProcessSchedule (simEnv noFaults) simOrc
    (ScheduleItem.mk ScheduleActionStartInstance scheduleInstance1
       (ScheduleData.mk "kubernetes" "")) simWorld
    = (Done (None, Some (Errorf "received request for the wrong orchestrator %v"
                           [AString "kubernetes"])), simWorld) ∧
  (∃ e, ProcessSchedule (simEnv noFaults) simOrc
          (ScheduleItem.mk ScheduleActionStartInstance
             (ScheduleInstance.mk "" InstanceTypeReplica "host-1")
             (ScheduleData.mk "docker" "")) simWorld
        = (Done (None, Some e), simWorld)) ∧
  ProcessSchedule (simEnv noFaults) simOrc
    (ScheduleItem.mk (ScheduleActionOther "pause") scheduleInstance1
       (ScheduleData.mk "docker" "")) simWorld
    = (Done (None, Some (Errorf "Cannot find specified action %v"
                           [AAction (ScheduleActionOther "pause")])), simWorld) ∧
  ProcessSchedule (simEnv noFaults) simOrc
    (ScheduleItem.mk ScheduleActionStartInstance scheduleInstance1
       (ScheduleData.mk "docker" "")) simWorld
    = startInstance (simEnv noFaults) simOrc "id-r1" InstanceTypeReplica simWorld.
Proof.
  split; [|split; [|split]].
  - pose proof (ProcessSchedule_dispatch (simEnv noFaults) simOrc
                  (ScheduleItem.mk ScheduleActionStartInstance scheduleInstance1
                     (ScheduleData.mk "kubernetes" "")) simWorld) as H.
    cbv zeta in H. destruct H as (H & _). apply H. discriminate.
  - pose proof (ProcessSchedule_dispatch (simEnv noFaults) simOrc
                  (ScheduleItem.mk ScheduleActionStartInstance
                     (ScheduleInstance.mk "" InstanceTypeReplica "host-1")
                     (ScheduleData.mk "docker" "")) simWorld) as H.
    cbv zeta in H. destruct H as (_ & H & _). apply H. reflexivity.
  - pose proof (ProcessSchedule_dispatch (simEnv noFaults) simOrc
                  (ScheduleItem.mk (ScheduleActionOther "pause") scheduleInstance1
                     (ScheduleData.mk "docker" "")) simWorld) as H.
    cbv zeta in H. destruct H as (_ & _ & H & _).
    destruct (H "pause" eq_refl) as (e & Hrun & He).
    rewrite Hrun, He; [reflexivity | reflexivity | reflexivity | discriminate].
  - pose proof (ProcessSchedule_dispatch (simEnv noFaults) simOrc
                  (ScheduleItem.mk ScheduleActionStartInstance scheduleInstance1
                     (ScheduleData.mk "docker" "")) simWorld) as H.
    cbv zeta in H. destruct H as (_ & _ & _ & H).
    apply (H dockerScheduleData.zero); [reflexivity | reflexivity | discriminate].
Defined.

(** C8 at work: the payload prepared for a controller of vol1. *)
Lemma createController_command_witness :
  getVolume "vol1" simWorld = (Done (Some vol1, None), simWorld) ∧
  ∃ payload,
    dockerScheduleData.VolumeName payload = "vol1" ∧
    dockerScheduleData.ReplicaAddresses payload =
      map (λ kr, "tcp://" +:+ ReplicaInfo.Address kr.2 +:+ ":9502")
        (rangeOrder (simEnv noFaults) (map_to_list (VolumeInfo.Replicas vol1))) ∧
    prepareCreateController (simEnv noFaults) "vol1" "c1" (VolumeInfo.Replicas vol1)
      simWorld =
      (Done match json_Marshal (simEnv noFaults) payload with
            | (bData, None) => (Some (ScheduleData.mk OrcName bData), None)
            | (_, Some e) =>
                (None, Some (Wrapf e "unable to marshall %+v" [APayload payload]))
            end, simWorld).
Proof.
  assert (Hget : getVolume "vol1" simWorld = (Done (Some vol1, None), simWorld)).
  { rewrite getVolume_healthy by reflexivity. by rewrite simWorld_vol1. }
  split; [exact Hget|].
  pose proof (createController_command (simEnv noFaults) simOrc controllerData
                simWorld) as H.
  cbv zeta in H. destruct H as [_ H].
  exact (H "vol1" "c1" (VolumeInfo.Replicas vol1) vol1 simWorld Hget).
Defined.

(** C2 at work: a runtime that refuses to start containers. *)
Lemma create_start_failure_removes_witness :
  createController (simEnv startFailing) simOrc controllerData simWorld =
    (Done (None,
           Some (Wrap (Wrapf (Foreign "start: driver failed")
                         "fail to start instance '%v' type %v"
                         [AString "id-c1"; AInstanceType InstanceTypeController])
                   "fail to start controller container")),
     issued simWorld
       [EvCreate (controllerConfig controllerData) controllerHostConfig "c1";
        EvStart "id-c1"; EvRemove "id-c1" true]) ∧
  createReplica (simEnv startFailing) simOrc replicaData simWorld =
    (Done (None,
           Some (Wrap (Wrapf (Foreign "start: driver failed")
                         "fail to start instance '%v' type %v"
                         [AString "id-r1"; AInstanceType InstanceTypeReplica])
                   "fail to start replica container")),
     issued simWorld
       [EvCreate (replicaConfig replicaData) replicaHostConfig "r1";
        EvStart "id-r1"; EvRemove "id-r1" true]).
Proof.
  split.
  - pose proof (create_start_failure_removes (simEnv startFailing) simOrc
                  controllerData simWorld "id-c1") as H.
    cbv zeta in H. destruct H as [H _].
    destruct (H eq_refl) as [_ Hstart].
    exact (Hstart (Foreign "start: driver failed") eq_refl).
  - pose proof (create_start_failure_removes (simEnv startFailing) simOrc
                  replicaData simWorld "id-r1") as H.
    cbv zeta in H. destruct H as [_ H].
    destruct (H eq_refl) as [_ Hstart].
    exact (Hstart (Foreign "start: driver failed") eq_refl).
Defined.

(** C3 at work: the API never answers; the API answers and the device never
    appears. *)
Lemma createController_wait_failure_no_teardown_witness :
  (createController (simEnv apiFailing) simOrc controllerData simWorld =
     (Done (None,
            Some (Wrapf (Foreign "timeout waiting for the API")
                    "fail to wait for api endpoint at %v"
                    [AString "http://10.0.0.6:9501/v1"])),
      issued simWorld
        [EvCreate (controllerConfig controllerData) controllerHostConfig "c1";
         EvStart "id-c1"; EvInspect "id-c1";
         EvWaitForAPI "http://10.0.0.6:9501/v1" 30])) ∧
  (createController (simEnv deviceFailing) simOrc controllerData simWorld =
     (Done (None,
            Some (Wrap (Foreign "timeout waiting for the device")
                    "fail to wait for device")),
      issued simWorld
        [EvCreate (controllerConfig controllerData) controllerHostConfig "c1";
         EvStart "id-c1"; EvInspect "id-c1";
         EvWaitForAPI "http://10.0.0.6:9501/v1" 30;
         EvWaitForDevice "/dev/longhorn/vol1" 30])).
Proof.
  split.
  - pose proof (createController_wait_failure_no_teardown (simEnv apiFailing) simOrc
                  controllerData simWorld "id-c1"
                  (ContainerJSON.mk "id-c1" "/c1" "10.0.0.6" true)
                  eq_refl eq_refl eq_refl) as [H _].
    exact (proj1 (H (Foreign "timeout waiting for the API") eq_refl)).
  - pose proof (createController_wait_failure_no_teardown (simEnv deviceFailing) simOrc
                  controllerData simWorld "id-c1"
                  (ContainerJSON.mk "id-c1" "/c1" "10.0.0.6" true)
                  eq_refl eq_refl eq_refl) as [_ H].
    exact (proj1 (H (Foreign "timeout waiting for the device") eq_refl eq_refl)).
Defined.

(** C9 at work: the requests for a controller and for a replica of vol1. *)
Lemma create_request_host_witness :
  (∃ r w' data rest,
     CreateController (simEnv noFaults) simOrc "vol1" "c1" (VolumeInfo.Replicas vol1)
       simWorld = (r, w') ∧
     trace w' =
       trace simWorld ++
       EvSchedule
         (ScheduleItem.mk ScheduleActionCreateController
            (ScheduleInstance.mk "c1" InstanceTypeController "host-1") data) :: rest) ∧
  (∃ r w' data rest,
     CreateReplica (simEnv noFaults) simOrc "vol1" "r3" simWorld = (r, w') ∧
     trace w' =
       trace simWorld ++
       EvSchedule
         (ScheduleItem.mk ScheduleActionCreateReplica
            (ScheduleInstance.mk "r3" InstanceTypeReplica "") data) :: rest).
Proof.
  destruct (create_request_host (simEnv noFaults) simOrc simWorld) as [HC HR].
  split.
  - destruct (HC "vol1" "c1" (VolumeInfo.Replicas vol1))
      as (r & w' & evs & Hrun & Htr & _ & Hsub).
    edestruct Hsub as [rest Hevs]; [vm_compute; reflexivity|].
    rewrite Hevs in Htr.
    eexists r, w', _, rest. split; [exact Hrun | exact Htr].
  - destruct (HR "vol1" "r3") as (r & w' & evs & Hrun & Htr & _ & Hsub).
    edestruct Hsub as [rest Hevs]; [vm_compute; reflexivity|].
    rewrite Hevs in Htr.
    eexists r, w', _, rest. split; [exact Hrun | exact Htr].
Defined.

(** C1, as amended, at work on vol0, whose Size is 0. *)
Lemma zero_size_guard_is_on_replica_witness :
  (∃ r w',
     CreateReplica (simEnv noFaults) simOrc "vol0" "r1" simWorld = (r, w') ∧
     trace w' = trace simWorld ∧
     ∀ i e, r ≠ Done (Some i, e)) ∧
  (∃ r evs,
     CreateController (simEnv noFaults) simOrc "vol0" "c1" ∅ simWorld =
       (r, issued simWorld
             (EvSchedule
                (ScheduleItem.mk ScheduleActionCreateController
                   (ScheduleInstance.mk "c1" InstanceTypeController "host-1")
                   (ScheduleData.mk "docker"
                      (sim_Marshal
                         (controllerPayload (simEnv noFaults) vol0 "vol0" "c1" ∅)).1))
                :: evs))).
Proof.
  destruct (zero_size_guard_is_on_replica (simEnv noFaults) simOrc "vol0" vol0
              simWorld simWorld_vol0) as [HR HC].
  split.
  - exact (HR eq_refl "r1").
  - exact (HC eq_refl "c1" ∅ _ eq_refl).
Defined.

(** C1 as stated fails: vol0 is stored with Size 0, and CreateController on
    it returns a controller after the container create was issued. *)
Lemma CreateController_zero_size_counterexample :
  volumes simWorld !! "vol0" = Some vol0 ∧
  VolumeInfo.Size vol0 = 0 ∧
  (CreateController (simEnv noFaults) simOrc "vol0" "c1" ∅ simWorld).1 =
    Done (Some (ControllerInfo.mk
                  (InstanceInfo.mk "id-c1" InstanceTypeController "c1" "host-1"
                     "http://10.0.0.6:9501" true)),
          None) ∧
  trace (CreateController (simEnv noFaults) simOrc "vol0" "c1" ∅ simWorld).2
    !! 1%nat =
    Some (EvCreate
            (Config.mk [] "longhornio/engine:v1" []
               ["launch"; "controller"; "--listen"; "0.0.0.0:9501";
                "--frontend"; "tgt"; "vol0"])
            (HostConfig.mk ["/dev:/host/dev"; "/proc:/host/proc"] true)
            "c1").
Proof.
  split; [exact simWorld_vol0|]. split; [reflexivity|].
  split; vm_compute; reflexivity.
Qed.

(** ** End-to-end runs *)

(** A replica of vol1 is created through the scheduler on the current host:
    the replica command carries the size of the volume, and the instance is
    the one the runtime reports. *)
Example CreateReplica_vol1 :
  (CreateReplica (simEnv noFaults) simOrc "vol1" "r3" simWorld).1 =
    Done (Some (ReplicaInfo.mk
                  (InstanceInfo.mk "id-r3" InstanceTypeReplica "r3" "host-1"
                     "10.0.0.6" true) 0%N),
          None) ∧
  trace (CreateReplica (simEnv noFaults) simOrc "vol1" "r3" simWorld).2 !! 1%nat =
    Some (EvCreate
            (Config.mk ["9502-9504"] "longhornio/engine:v1" ["/volume"]
               ["launch"; "replica"; "--listen"; "0.0.0.0:9502";
                "--size"; "1073741824"; "/volume"])
            (HostConfig.mk [] true) "r3").
Proof. split; vm_compute; reflexivity. Qed.

(** A controller of vol1 over replica r1: the address is rewritten to the
    URL form, and the command names the replica endpoint and ends with the
    volume. *)
Example CreateController_vol1 :
  (CreateController (simEnv noFaults) simOrc "vol1" "c1" (<["r1" := replica1]> ∅)
     simWorld).1 =
    Done (Some (ControllerInfo.mk
                  (InstanceInfo.mk "id-c1" InstanceTypeController "c1" "host-1"
                     "http://10.0.0.6:9501" true)),
          None) ∧
  trace (CreateController (simEnv noFaults) simOrc "vol1" "c1" (<["r1" := replica1]> ∅)
           simWorld).2 !! 1%nat =
    Some (EvCreate
            (Config.mk [] "longhornio/engine:v1" []
               ["launch"; "controller"; "--listen"; "0.0.0.0:9501";
                "--frontend"; "tgt"; "--replica"; "tcp://10.0.0.5:9502"; "vol1"])
            (HostConfig.mk ["/dev:/host/dev"; "/proc:/host/proc"] true) "c1").
Proof. split; vm_compute; reflexivity. Qed.

(** * More of the engine *)

(** ** Complete runs of the creation handlers *)

Section HandlerRuns.

Context (env : Env) (d : dockerOrc.t).

Lemma startInstance_cases (id : string) (type : InstanceType) (w : World) :
  startInstance env d id type w =
    match ContainerStart env (trace w) id with
    | Some e =>
        (Done (None, Some (Wrapf e "fail to start instance '%v' type %v"
                             [AString id; AInstanceType type])),
         issued w [EvStart id])
    | None =>
        match ContainerInspect env (trace w ++ [EvStart id]) id with
        | (_, Some e) =>
            (Done (None, Some (Wrap e "fail to inspect replica container")),
             issued w [EvStart id; EvInspect id])
        | (j, None) =>
            (Done (Some (derivedInstance d type j), None), issued w [EvStart id; EvInspect id])
        end
    end.
Proof.
  rewrite startInstance_run.
  destruct (ContainerStart env (trace w) id); [done|].
  rewrite generateInstanceInfo_run, issued_issued, trace_issued. cbn.
  by destruct (ContainerInspect env _ id) as [j [e|]].
Qed.

Lemma stopInstance_cases (id : string) (type : InstanceType) (w : World) :
  stopInstance env d id type w =
    match ContainerStop env (trace w) id with
    | Some e =>
        (Done (None, Some (Wrapf e "fail to start instance '%v'" [AString id])),
         issued w [EvStop id])
    | None =>
        match ContainerInspect env (trace w ++ [EvStop id]) id with
        | (_, Some e) =>
            (Done (None, Some (Wrap e "fail to inspect replica container")),
             issued w [EvStop id; EvInspect id])
        | (j, None) =>
            (Done (Some (derivedInstance d type j), None), issued w [EvStop id; EvInspect id])
        end
    end.
Proof.
  rewrite stopInstance_run.
  destruct (ContainerStop env (trace w) id); [done|].
  rewrite generateInstanceInfo_run, issued_issued, trace_issued. cbn.
  by destruct (ContainerInspect env _ id) as [j [e|]].
Qed.

Lemma createReplica_cases (data : dockerScheduleData.t) (w : World) :
  let name := dockerScheduleData.InstanceName data in
  let create := EvCreate (replicaConfig data) replicaHostConfig name in
  createReplica env d data w =
    match ContainerCreate env (trace w) (replicaConfig data) replicaHostConfig name with
    | (_, Some e) =>
        (Done (None, Some (Wrap e "fail to create replica container")),
         issued w [create])
    | (cid, None) =>
        match ContainerStart env (trace w ++ [create]) cid with
        | Some e =>
            (Done (None,
                   Some (Wrap (Wrapf e "fail to start instance '%v' type %v"
                                 [AString cid; AInstanceType InstanceTypeReplica])
                           "fail to start replica container")),
             issued w [create; EvStart cid; EvRemove cid true])
        | None =>
            match ContainerInspect env (trace w ++ [create; EvStart cid]) cid with
            | (_, Some e) =>
                (Done (None,
                       Some (Wrap (Wrap e "fail to inspect replica container")
                               "fail to start replica container")),
                 issued w [create; EvStart cid; EvInspect cid; EvRemove cid true])
            | (j, None) =>
                (Done (Some (derivedInstance d InstanceTypeReplica j), None),
                 issued w [create; EvStart cid; EvInspect cid])
            end
        end
    end.
Proof.
  intros name create.
  unfold createReplica, bind. rewrite cli_ContainerCreate_run. fold name create.
  destruct (ContainerCreate env _ _ _ _) as [cid [e|]]; cbn; [done|].
  rewrite startInstance_cases, trace_issued.
  destruct (ContainerStart env _ cid); cbn.
  { by rewrite issued_issued, removeInstance_run, issued_issued. }
  rewrite <- app_assoc. cbn.
  destruct (ContainerInspect env _ cid) as [j [e|]]; cbn.
  - by rewrite issued_issued, removeInstance_run, issued_issued.
  - by rewrite issued_issued.
Qed.

Lemma createController_cases (data : dockerScheduleData.t) (w : World) :
  let name := dockerScheduleData.InstanceName data in
  let create := EvCreate (controllerConfig data) controllerHostConfig name in
  createController env d data w =
    match ContainerCreate env (trace w) (controllerConfig data) controllerHostConfig
            name with
    | (_, Some e) =>
        (Done (None, Some (Wrap e "fail to create controller container")),
         issued w [create])
    | (cid, None) =>
        match ContainerStart env (trace w ++ [create]) cid with
        | Some e =>
            (Done (None,
                   Some (Wrap (Wrapf e "fail to start instance '%v' type %v"
                                 [AString cid; AInstanceType InstanceTypeController])
                           "fail to start controller container")),
             issued w [create; EvStart cid; EvRemove cid true])
        | None =>
            match ContainerInspect env (trace w ++ [create; EvStart cid]) cid with
            | (_, Some e) =>
                (Done (None,
                       Some (Wrap (Wrap e "fail to inspect replica container")
                               "fail to start controller container")),
                 issued w [create; EvStart cid; EvInspect cid; EvRemove cid true])
            | (j, None) =>
                let started := [create; EvStart cid; EvInspect cid] in
                let address := "http://" +:+ ContainerJSON.IPAddress j +:+ ":9501" in
                let url := address +:+ "/v1" in
                let device := getDeviceName env (dockerScheduleData.VolumeName data) in
                let waitAPI := EvWaitForAPI url WaitAPITimeout in
                let waitDevice := EvWaitForDevice device WaitDeviceTimeout in
                match WaitForAPI env (trace w ++ started) url WaitAPITimeout with
                | Some e =>
                    (Done (None, Some (Wrapf e "fail to wait for api endpoint at %v"
                                         [AString url])),
                     issued w (started ++ [waitAPI]))
                | None =>
                    match WaitForDevice env (trace w ++ started ++ [waitAPI]) device
                            WaitDeviceTimeout with
                    | Some e =>
                        (Done (None, Some (Wrap e "fail to wait for device")),
                         issued w (started ++ [waitAPI; waitDevice]))
                    | None =>
                        (Done (Some (setAddress (derivedInstance d InstanceTypeController j)
                                       address), None),
                         issued w (started ++ [waitAPI; waitDevice]))
                    end
                end
            end
        end
    end.
Proof.
  intros name create.
  unfold createController, bind. rewrite cli_ContainerCreate_run. fold name create.
  destruct (ContainerCreate env _ _ _ _) as [cid [e|]]; cbn; [done|].
  rewrite startInstance_cases, trace_issued.
  destruct (ContainerStart env _ cid); cbn.
  { by rewrite issued_issued, removeInstance_run, issued_issued. }
  rewrite <- app_assoc. cbn.
  destruct (ContainerInspect env _ cid) as [j [e|]]; cbn.
  { by rewrite issued_issued, removeInstance_run, issued_issued. }
  rewrite issued_issued, util_WaitForAPI_run, issued_issued, trace_issued. cbn.
  destruct (WaitForAPI env _ _ _); [done|].
  rewrite util_WaitForDevice_run, issued_issued, trace_issued. cbn.
  by destruct (WaitForDevice env _ _ _).
Qed.

End HandlerRuns.

(** ** What the handlers return and issue *)

Lemma substring_whole (s : string) : String.substring 0 (String.length s) s = s.
Proof. induction s as [|c s IH]; cbn; [done|by rewrite IH]. Qed.

Lemma strings_TrimPrefix_slash (n : string) : strings_TrimPrefix ("/" +:+ n) "/" = n.
Proof.
  change ("/" +:+ n) with (String "/" n).
  unfold strings_TrimPrefix. cbn. rewrite ?Nat.sub_0_r.
  replace (String.prefix "" n) with true by (by destruct n).
  apply substring_whole.
Qed.

Lemma strings_TrimPrefix_other (s p : string) :
  String.prefix p s = false → strings_TrimPrefix s p = s.
Proof. intros H. unfold strings_TrimPrefix. by rewrite H. Qed.

(* membership of a call in an explicit list of calls *)
Ltac in_calls :=
  rewrite ?elem_of_app, ?elem_of_cons, ?elem_of_nil; naive_solver.

Section HandlerProperties.

Context (env : Env) (d : dockerOrc.t).

(** X1. createController returns an instance only after the create, the
    start, the inspection, the wait for the API and the wait for the device
    have all succeeded, in this order and with nothing else issued; the
    instance is the inspected one with its address rewritten to
    http://<address>:9501, the API is awaited at that address followed by
    /v1, and both waits are given 30 seconds. *)
Theorem createController_success_means_ready (data : dockerScheduleData.t)
    (w w' : World) (i : InstanceInfo.t) (err : option error) :
  createController env d data w = (Done (Some i, err), w') →
  ∃ cid j,
    let name := dockerScheduleData.InstanceName data in
    let create := EvCreate (controllerConfig data) controllerHostConfig name in
    let address := "http://" +:+ ContainerJSON.IPAddress j +:+ ":9501" in
    let waitAPI := EvWaitForAPI (address +:+ "/v1") 30 in
    let waitDevice :=
      EvWaitForDevice (getDeviceName env (dockerScheduleData.VolumeName data)) 30 in
    err = None ∧
    ContainerCreate env (trace w) (controllerConfig data) controllerHostConfig name
      = (cid, None) ∧
    ContainerStart env (trace w ++ [create]) cid = None ∧
    ContainerInspect env (trace w ++ [create; EvStart cid]) cid = (j, None) ∧
    WaitForAPI env (trace w ++ [create; EvStart cid; EvInspect cid])
      (address +:+ "/v1") 30 = None ∧
    WaitForDevice env (trace w ++ [create; EvStart cid; EvInspect cid; waitAPI])
      (getDeviceName env (dockerScheduleData.VolumeName data)) 30 = None ∧
    i = InstanceInfo.mk (ContainerJSON.ID j) InstanceTypeController
          (strings_TrimPrefix (ContainerJSON.Name j) "/") (GetCurrentHostID d)
          address (ContainerJSON.Running j) ∧
    w' = issued w [create; EvStart cid; EvInspect cid; waitAPI; waitDevice].
Proof.
  rewrite createController_cases. cbv zeta.
  destruct (ContainerCreate env _ _ _ _) as [cid [e|]] eqn:Hcreate; [done|].
  destruct (ContainerStart env _ cid) eqn:Hstart; [done|].
  destruct (ContainerInspect env _ cid) as [j [e|]] eqn:Hinspect; [done|].
  destruct (WaitForAPI env _ _ _) eqn:Hapi; [done|].
  destruct (WaitForDevice env _ _ _) eqn:Hdevice; [done|].
  intros [= <- <- <-]. exists cid, j. cbv zeta. done.
Qed.

(** X2. createController and createReplica issue a remove exactly when the
    container was created and the start step (the start call or the
    inspection after it) failed; the remove is then for the created
    container, with its volumes. *)
Theorem create_removes_iff_start_failed (data : dockerScheduleData.t) (w : World) :
  let name := dockerScheduleData.InstanceName data in
  let startFailed (config : Config.t) (hostConfig : HostConfig.t) (cid : string) :=
    let create := EvCreate config hostConfig name in
    ContainerCreate env (trace w) config hostConfig name = (cid, None) ∧
    (ContainerStart env (trace w ++ [create]) cid ≠ None ∨
     (ContainerStart env (trace w ++ [create]) cid = None ∧
      (ContainerInspect env (trace w ++ [create; EvStart cid]) cid).2 ≠ None)) in
  (∃ r evs,
     createController env d data w = (r, issued w evs) ∧
     ∀ id withVolumes,
       EvRemove id withVolumes ∈ evs ↔
       withVolumes = true ∧ startFailed (controllerConfig data) controllerHostConfig id) ∧
  (∃ r evs,
     createReplica env d data w = (r, issued w evs) ∧
     ∀ id withVolumes,
       EvRemove id withVolumes ∈ evs ↔
       withVolumes = true ∧ startFailed (replicaConfig data) replicaHostConfig id).
Proof.
  intros name startFailed. subst startFailed. cbv beta zeta. split.
  - rewrite createController_cases. cbv zeta. fold name.
    destruct (ContainerCreate env _ _ _ _) as [cid [e|]] eqn:Hcreate.
    { eexists _, _. split; [done|]. intros id vs. in_calls. }
    destruct (ContainerStart env _ cid) eqn:Hstart.
    { eexists _, _. split; [done|]. intros id vs.
      rewrite ?elem_of_cons, ?elem_of_nil. split.
      - intros [?|[?|[[= <- <-]|[]]]]; try done. rewrite Hstart. eauto.
      - intros (-> & [= <-] & _). auto. }
    destruct (ContainerInspect env _ cid) as [j [e|]] eqn:Hinspect.
    { eexists _, _. split; [done|]. intros id vs.
      rewrite ?elem_of_cons, ?elem_of_nil. split.
      - intros [?|[?|[?|[[= <- <-]|[]]]]]; try done.
        rewrite Hstart, Hinspect. cbn. eauto.
      - intros (-> & [= <-] & _). auto. }
    destruct (WaitForAPI env _ _ _); [|destruct (WaitForDevice env _ _ _)];
      (eexists _, _; split; [done|]); intros id vs; cbn;
      rewrite ?elem_of_cons, ?elem_of_nil;
      (split; [naive_solver|]);
      intros (_ & [= <-] & [H|[H1 H2]]);
      [by rewrite Hstart in H | by rewrite Hinspect in H2
      |by rewrite Hstart in H | by rewrite Hinspect in H2
      |by rewrite Hstart in H | by rewrite Hinspect in H2].
  - rewrite createReplica_cases. cbv zeta. fold name.
    destruct (ContainerCreate env _ _ _ _) as [cid [e|]] eqn:Hcreate.
    { eexists _, _. split; [done|]. intros id vs. in_calls. }
    destruct (ContainerStart env _ cid) eqn:Hstart.
    { eexists _, _. split; [done|]. intros id vs.
      rewrite ?elem_of_cons, ?elem_of_nil. split.
      - intros [?|[?|[[= <- <-]|[]]]]; try done. rewrite Hstart. eauto.
      - intros (-> & [= <-] & _). auto. }
    destruct (ContainerInspect env _ cid) as [j [e|]] eqn:Hinspect.
    { eexists _, _. split; [done|]. intros id vs.
      rewrite ?elem_of_cons, ?elem_of_nil. split.
      - intros [?|[?|[?|[[= <- <-]|[]]]]]; try done.
        rewrite Hstart, Hinspect. cbn. eauto.
      - intros (-> & [= <-] & _). auto. }
    eexists _, _. split; [done|]. intros id vs.
    rewrite ?elem_of_cons, ?elem_of_nil. split; [naive_solver|].
    intros (_ & [= <-] & [H|[H1 H2]]);
      [by rewrite Hstart in H | by rewrite Hinspect in H2].
Qed.

(** X3. The first call of createReplica is the container create with the
    command launch replica --listen 0.0.0.0:9502 --size <VolumeSize> /volume,
    the port range 9502-9504 and the data volume /volume.  It never waits for
    readiness, and when it returns an instance, that is the instance derived
    from the inspection after the start, whatever its running flag. *)
Theorem createReplica_command_and_result (data : dockerScheduleData.t) (w : World) :
  let name := dockerScheduleData.InstanceName data in
  let create :=
    EvCreate
      (Config.mk ["9502-9504"] (dockerScheduleData.LonghornImage data) ["/volume"]
         ["launch"; "replica"; "--listen"; "0.0.0.0:9502";
          "--size"; dockerScheduleData.VolumeSize data; "/volume"])
      (HostConfig.mk [] true) name in
  ∃ r evs,
    createReplica env d data w = (r, issued w (create :: evs)) ∧
    Forall (λ ev, isReadinessWait ev = false) evs ∧
    (∀ i err,
       r = Done (Some i, err) →
       err = None ∧
       ∃ cid j,
         ContainerCreate env (trace w) (replicaConfig data) replicaHostConfig name
           = (cid, None) ∧
         ContainerInspect env (trace w ++ [create; EvStart cid]) cid = (j, None) ∧
         i = InstanceInfo.mk (ContainerJSON.ID j) InstanceTypeReplica
               (strings_TrimPrefix (ContainerJSON.Name j) "/") (GetCurrentHostID d)
               (ContainerJSON.IPAddress j) (ContainerJSON.Running j) ∧
         evs = [EvStart cid; EvInspect cid]).
Proof.
  intros name create. rewrite createReplica_cases. cbv zeta.
  change (EvCreate (replicaConfig data) replicaHostConfig
            (dockerScheduleData.InstanceName data)) with create.
  fold name.
  destruct (ContainerCreate env _ _ _ _) as [cid [e|]] eqn:Hcreate.
  { eexists _, _. split; [done|]. split; [constructor|]. intros i err [=]. }
  destruct (ContainerStart env _ cid) eqn:Hstart.
  { eexists _, _. split; [done|]. split; [repeat constructor|]. intros i err [=]. }
  destruct (ContainerInspect env _ cid) as [j [e|]] eqn:Hinspect.
  { eexists _, _. split; [done|]. split; [repeat constructor|]. intros i err [=]. }
  eexists _, _. split; [done|]. split; [repeat constructor|].
  intros i err [= <- <-]. split; [done|]. exists cid, j. done.
Qed.


(** X5. The instance startInstance and stopInstance return is read off the
    inspection that follows the call: ID, address and running flag are the
    runtime's, the name is the runtime's without one leading slash, the type
    is the requested one and the host is the current host. *)
Theorem instance_is_read_off_inspection (id : string) (type : InstanceType)
    (w : World) (j : ContainerJSON.t) :
  let describes (i : InstanceInfo.t) :=
    InstanceInfo.ID i = ContainerJSON.ID j ∧
    InstanceInfo.Type_ i = type ∧
    InstanceInfo.HostID i = GetCurrentHostID d ∧
    InstanceInfo.Address i = ContainerJSON.IPAddress j ∧
    InstanceInfo.Running i = ContainerJSON.Running j ∧
    (∀ n, ContainerJSON.Name j = "/" +:+ n → InstanceInfo.Name i = n) ∧
    (String.prefix "/" (ContainerJSON.Name j) = false →
     InstanceInfo.Name i = ContainerJSON.Name j) in
  (ContainerStart env (trace w) id = None →
   ContainerInspect env (trace w ++ [EvStart id]) id = (j, None) →
   ∃ i, startInstance env d id type w
          = (Done (Some i, None), issued w [EvStart id; EvInspect id]) ∧
        describes i) ∧
  (ContainerStop env (trace w) id = None →
   ContainerInspect env (trace w ++ [EvStop id]) id = (j, None) →
   ∃ i, stopInstance env d id type w
          = (Done (Some i, None), issued w [EvStop id; EvInspect id]) ∧
        describes i).
Proof.
  intros describes.
  assert (Hd : describes (derivedInstance d type j)).
  { repeat split.
    - intros n Hn. cbn. rewrite Hn. apply strings_TrimPrefix_slash.
    - intros Hn. cbn. by apply strings_TrimPrefix_other. }
  split; intros Hcall Hinspect.
  - rewrite startInstance_cases, Hcall, Hinspect. eauto.
  - rewrite stopInstance_cases, Hcall, Hinspect. eauto.
Qed.

End HandlerProperties.

(** ** Instance operations for callers *)

Section InstanceOperationProperties.

Context (env : Env) (d : dockerOrc.t).

Lemma Schedule_here (item : ScheduleItem.t) (w : World) :
  ScheduleInstance.HostID (ScheduleItem.Instance item) ≠ "" →
  ScheduleInstance.HostID (ScheduleItem.Instance item) = GetCurrentHostID d →
  Schedule env d item w = ProcessSchedule env d item (issued w [EvSchedule item]).
Proof.
  intros Hne Hhere. unfold Schedule, bind, emit. cbn.
  apply String.eqb_neq in Hne. rewrite Hne, Hhere, String.eqb_refl. done.
Qed.

Lemma invalidInstance_false (instance : InstanceInfo.t) :
  invalidInstance instance = false ↔
  InstanceInfo.ID instance ≠ "" ∧ InstanceInfo.HostID instance ≠ "" ∧
  InstanceInfo.Type_ instance ≠ InstanceTypeNone.
Proof.
  unfold invalidInstance. rewrite !orb_false_iff, !String.eqb_neq.
  destruct (InstanceInfo.Type_ instance); naive_solver.
Qed.

(* a request built by StartInstance, StopInstance or RemoveInstance passes
   the checks of ProcessSchedule *)
Lemma ProcessSchedule_instanceSchedule (action : ScheduleAction)
    (instance : InstanceInfo.t) (w : World) :
  InstanceInfo.ID instance ≠ "" →
  ProcessSchedule env d (instanceSchedule action instance) w =
    match action with
    | ScheduleActionCreateController => createController env d dockerScheduleData.zero w
    | ScheduleActionCreateReplica => createReplica env d dockerScheduleData.zero w
    | ScheduleActionStartInstance =>
        startInstance env d (InstanceInfo.ID instance) (InstanceInfo.Type_ instance) w
    | ScheduleActionStopInstance =>
        stopInstance env d (InstanceInfo.ID instance) (InstanceInfo.Type_ instance) w
    | ScheduleActionDeleteInstance =>
        removeInstance env (InstanceInfo.ID instance) (InstanceInfo.Type_ instance) w
    | ScheduleActionOther _ =>
        (Done (None, Some (Errorf "Cannot find specified action %v" [AAction action])), w)
    end.
Proof.
  intros Hid. apply String.eqb_neq in Hid.
  unfold ProcessSchedule, instanceSchedule. cbn. rewrite Hid.
  by destruct action.
Qed.

(** X6. StartInstance, StopInstance and RemoveInstance reject an instance
    whose ID or HostID is empty or whose type is None without issuing any
    call; for any other instance the first call is the Schedule of a request
    that carries the instance's ID, type and HostID, this engine's tag and
    no payload. *)
Theorem instance_operations_validate (instance : InstanceInfo.t) (w : World) :
  let request action :=
    ScheduleItem.mk action
      (ScheduleInstance.mk (InstanceInfo.ID instance) (InstanceInfo.Type_ instance)
         (InstanceInfo.HostID instance))
      (ScheduleData.mk "docker" "") in
  ((InstanceInfo.ID instance = "" ∨ InstanceInfo.HostID instance = "" ∨
    InstanceInfo.Type_ instance = InstanceTypeNone) →
   StartInstance env d instance w =
     (Done (Some (Errorf "Invalid instance info to start %+v" (fmtInstance instance))), w) ∧
   StopInstance env d instance w =
     (Done (Some (Errorf "Invalid instance info to stop %+v" (fmtInstance instance))), w) ∧
   RemoveInstance env d instance w =
     (Done (Some (Errorf "Invalid instance info to remove %+v" (fmtInstance instance))), w)) ∧
  ((InstanceInfo.ID instance ≠ "" ∧ InstanceInfo.HostID instance ≠ "" ∧
    InstanceInfo.Type_ instance ≠ InstanceTypeNone) →
   (∃ r evs, StartInstance env d instance w =
               (r, issued w (EvSchedule (request ScheduleActionStartInstance) :: evs))) ∧
   (∃ r evs, StopInstance env d instance w =
               (r, issued w (EvSchedule (request ScheduleActionStopInstance) :: evs))) ∧
   (∃ r evs, RemoveInstance env d instance w =
               (r, issued w (EvSchedule (request ScheduleActionDeleteInstance) :: evs)))).
Proof.
  intros request. split.
  - intros Hbad.
    assert (Hinv : invalidInstance instance = true).
    { destruct (invalidInstance instance) eqn:E; [done|].
      apply invalidInstance_false in E. naive_solver. }
    unfold StartInstance, StopInstance, RemoveInstance. by rewrite Hinv.
  - intros Hok. apply invalidInstance_false in Hok.
    unfold StartInstance, StopInstance, RemoveInstance, bind. rewrite Hok.
    repeat split;
      match goal with
      | |- context [Schedule env d ?item w] =>
          destruct (Schedule_issues env d item w) as (r & evs & Hrun & _);
          rewrite Hrun; destruct r as [[i [e|]]|]; cbn; eauto
      end.
Qed.

(** X7. A valid instance of the current host: the request that
    StartInstance, StopInstance or RemoveInstance builds passes every check
    of ProcessSchedule on this host, so that exactly the handler runs after
    the Schedule call and only the handler's error, wrapped, can come back.
    RemoveInstance issues the Schedule call and one remove, with volumes. *)
Theorem instance_operations_run_here (instance : InstanceInfo.t) (w : World) :
  let id := InstanceInfo.ID instance in
  let type := InstanceInfo.Type_ instance in
  let request action :=
    ScheduleItem.mk action
      (ScheduleInstance.mk id type (InstanceInfo.HostID instance))
      (ScheduleData.mk "docker" "") in
  let outcome (format : string) (run : Outcome (goret InstanceInfo.t) * World) :=
    match run with
    | (Done (_, Some e), w') => (Done (Some (Wrapf e format [AString id])), w')
    | (Done (_, None), w') => (Done None, w')
    | (Panic, w') => (Panic, w')
    end in
  id ≠ "" → type ≠ InstanceTypeNone →
  InstanceInfo.HostID instance ≠ "" →
  InstanceInfo.HostID instance = GetCurrentHostID d →
  StartInstance env d instance w =
    outcome "Fail to start instance %v"
      (startInstance env d id type
         (issued w [EvSchedule (request ScheduleActionStartInstance)])) ∧
  StopInstance env d instance w =
    outcome "Fail to stop instance %v"
      (stopInstance env d id type
         (issued w [EvSchedule (request ScheduleActionStopInstance)])) ∧
  RemoveInstance env d instance w =
    (Done match ContainerRemove env
                  (trace w ++ [EvSchedule (request ScheduleActionDeleteInstance)]) id with
          | Some e =>
              Some (Wrapf (Wrapf e "Fail to remove instance %v" [AString id])
                      "Fail to remove instance %v" [AString id])
          | None => None
          end,
     issued w [EvSchedule (request ScheduleActionDeleteInstance); EvRemove id true]).
Proof.
  intros id type request outcome Hid Htype Hhost Hhere.
  assert (Hok : invalidInstance instance = false) by by apply invalidInstance_false.
  unfold StartInstance, StopInstance, RemoveInstance, bind. rewrite Hok.
  rewrite !Schedule_here by done.
  rewrite !ProcessSchedule_instanceSchedule by done.
  fold id type.
  change (instanceSchedule ScheduleActionStartInstance instance)
    with (request ScheduleActionStartInstance).
  change (instanceSchedule ScheduleActionStopInstance instance)
    with (request ScheduleActionStopInstance).
  change (instanceSchedule ScheduleActionDeleteInstance instance)
    with (request ScheduleActionDeleteInstance).
  split; [|split].
  - by destruct (startInstance env d id type _) as [[[i [e|]]|] w'].
  - by destruct (stopInstance env d id type _) as [[[i [e|]]|] w'].
  - rewrite removeInstance_run, issued_issued, trace_issued.
    by destruct (ContainerRemove env _ id).
Qed.

End InstanceOperationProperties.

(** ** Creation through the scheduler *)

Section CreationProperties.

Context (env : Env) (d : dockerOrc.t).



(** X8. When the volume cannot be read, or the payload cannot be
    marshalled, CreateController and CreateReplica return that error,
    wrapped twice, and issue no call: nothing is scheduled and no container
    is created. *)
Theorem create_fails_before_scheduling (volumeName instanceName : string)
    (replicas : gmap string ReplicaInfo.t) (w : World) :
  (∀ v e w1,
     getVolume volumeName w = (Done (v, Some e), w1) →
     trace w1 = trace w ∧
     CreateController env d volumeName instanceName replicas w =
       (Done (None, Some (Wrapf (Wrap e "unable to create controller")
                            "Fail to create controller for %v" [AString volumeName])),
        w1) ∧
     CreateReplica env d volumeName instanceName w =
       (Done (None, Some (Wrapf (Wrap e "unable to create replica")
                            "Fail to create replica for %v" [AString volumeName])),
        w1)) ∧
  (∀ volume w1,
     getVolume volumeName w = (Done (Some volume, None), w1) →
     trace w1 = trace w ∧
     (∀ bData e,
        json_Marshal env (controllerPayload env volume volumeName instanceName replicas)
          = (bData, Some e) →
        CreateController env d volumeName instanceName replicas w =
          (Done (None,
                 Some (Wrapf (Wrapf e "unable to marshall %+v"
                                [APayload (controllerPayload env volume volumeName
                                             instanceName replicas)])
                         "Fail to create controller for %v" [AString volumeName])),
           w1)) ∧
     (∀ bData e,
        VolumeInfo.Size volume ≠ 0 →
        json_Marshal env (replicaPayload volume instanceName) = (bData, Some e) →
        CreateReplica env d volumeName instanceName w =
          (Done (None,
                 Some (Wrapf (Wrapf e "unable to marshall %+v"
                                [APayload (replicaPayload volume instanceName)])
                         "Fail to create replica for %v" [AString volumeName])),
           w1))).
Proof.
  assert (Htrace : ∀ r w1, getVolume volumeName w = (Done r, w1) → trace w1 = trace w).
  { intros r w1 Hget.
    destruct (getVolume_cases volumeName w)
      as (w' & _ & Htr & _ & [H | [[_ H] | (v & _ & H)]]);
      rewrite H in Hget; by simplify_eq. }
  split.
  - intros v e w1 Hget. split; [by eapply Htrace|].
    unfold CreateController, CreateReplica, prepareCreateController,
      prepareCreateReplica, bind.
    by rewrite Hget.
  - intros volume w1 Hget. split; [by eapply Htrace|]. split.
    + intros bData e Hmarshal.
      unfold CreateController, prepareCreateController, bind.
      rewrite Hget. cbn. by rewrite Hmarshal.
    + intros bData e Hsize Hmarshal.
      unfold CreateReplica, prepareCreateReplica, bind.
      rewrite Hget. cbn. apply Z.eqb_neq in Hsize. rewrite Hsize.
      by rewrite Hmarshal.
Qed.



(** X11. CreateController with an empty controller name, on a stored volume
    and an engine whose host has an identity: the request is scheduled and
    refused by ProcessSchedule on this host, so the call fails and no
    Container Runtime call is issued. *)
Theorem CreateController_empty_name (volumeName : string)
    (replicas : gmap string ReplicaInfo.t) (v : VolumeInfo.t) (bData : string)
    (w : World) :
  let item :=
    ScheduleItem.mk ScheduleActionCreateController
      (ScheduleInstance.mk "" InstanceTypeController (GetCurrentHostID d))
      (ScheduleData.mk "docker" bData) in
  faults w = [] →
  volumes w !! volumeName = Some v →
  json_Marshal env (controllerPayload env v volumeName "" replicas) = (bData, None) →
  GetCurrentHostID d ≠ "" →
  ∃ e,
    CreateController env d volumeName "" replicas w =
      (Done (None, Some (Wrapf e "Fail to create controller for %v"
                           [AString volumeName])),
       issued w [EvSchedule item]).
Proof.
  intros item Hfaults Hstored Hmarshal Hhost.
  unfold CreateController, prepareCreateController, bind.
  rewrite (getVolume_healthy _ w Hfaults), Hstored. cbn.
  rewrite Hmarshal. cbn.
  change (Schedule env d _ w) with (Schedule env d item w).
  rewrite (Schedule_here env d item w Hhost eq_refl).
  unfold ProcessSchedule, item. cbn.
  destruct (unmarshalPayload env bData) as [data [e|]]; cbn; eauto.
Qed.

End CreationProperties.

(** ** Volume records, continued *)

Lemma UpdateVolume_cases (v : VolumeInfo.t) (w : World) :
  ∃ r w',
    UpdateVolume v w = (Done r, w') ∧ trace w' = trace w ∧ clock w' = clock w ∧
    ((∃ e, r = Some e ∧ volumes w' = volumes w) ∨
     (r = None ∧ is_Some (volumes w !! VolumeInfo.Name v) ∧
      volumes w' = <[VolumeInfo.Name v := v]> (volumes w))).
Proof.
  unfold UpdateVolume, bind.
  destruct (getVolume_cases (VolumeInfo.Name v) w)
    as (w1 & Hvs & Htr & Hck & [Hget | [[_ Hget] | (v0 & Hv0 & Hget)]]);
    rewrite Hget; cbn.
  - eexists _, _. split; [done|]. eauto 10.
  - eexists _, _. split; [done|]. eauto 10.
  - destruct (setVolume_cases v w1)
      as [(w2 & Hset & Hvs2 & Htr2 & Hck2) | (w2 & Hset & Hvs2 & Htr2 & Hck2)];
      rewrite Hset; eexists _, _; (split; [done|]);
      (split; [congruence|]); (split; [congruence|]).
    + right. split; [done|]. split; [by rewrite Hv0|]. by rewrite Hvs2, Hvs.
    + left. eexists. split; [done|]. congruence.
Qed.

(** X12. UpdateVolume on a store that serves its requests and holds a
    record of the name: the record is replaced by the one given, as a whole,
    and of two updates the later one is what GetVolume returns; the records
    of other names stay as they are. *)
Theorem UpdateVolume_last_writer_wins (v1 v2 : VolumeInfo.t) (w : World) :
  faults w = [] →
  is_Some (volumes w !! VolumeInfo.Name v1) →
  VolumeInfo.Name v2 = VolumeInfo.Name v1 →
  ∃ w1 w2,
    UpdateVolume v1 w = (Done None, w1) ∧
    GetVolume (VolumeInfo.Name v1) w1 = (Done (Some v1, None), w1) ∧
    UpdateVolume v2 w1 = (Done None, w2) ∧
    GetVolume (VolumeInfo.Name v1) w2 = (Done (Some v2, None), w2) ∧
    (∀ name, name ≠ VolumeInfo.Name v1 → volumes w2 !! name = volumes w !! name).
Proof.
  intros Hfaults [v0 Hv0] Hname.
  set (w1 := mkWorld (<[VolumeInfo.Name v1 := v1]> (volumes w)) [] (trace w) (clock w)).
  set (w2 := mkWorld (<[VolumeInfo.Name v1 := v2]> (volumes w1)) [] (trace w) (clock w)).
  exists w1, w2.
  assert (H1 : UpdateVolume v1 w = (Done None, w1)).
  { unfold UpdateVolume, bind. rewrite (getVolume_healthy _ w Hfaults), Hv0. cbn.
    rewrite (setVolume_healthy _ w Hfaults). by rewrite Hfaults. }
  assert (H2 : UpdateVolume v2 w1 = (Done None, w2)).
  { unfold UpdateVolume, bind. rewrite Hname.
    rewrite (getVolume_healthy _ w1 eq_refl). cbn.
    rewrite lookup_insert_eq. cbn.
    rewrite (setVolume_healthy _ w1 eq_refl). by rewrite Hname. }
  split; [done|]. split.
  { unfold GetVolume. rewrite (getVolume_healthy _ w1 eq_refl). cbn.
    by rewrite lookup_insert_eq. }
  split; [done|]. split.
  { unfold GetVolume. rewrite (getVolume_healthy _ w2 eq_refl). cbn.
    by rewrite lookup_insert_eq. }
  intros name Hne. cbn. by rewrite !lookup_insert_ne.
Qed.

Section MarkBadMore.

Context (env : Env).

Lemma range_finds_none (replicas : gmap string ReplicaInfo.t) (name : string) :
  (∀ l, rangeOrder env l ≡ₚ l) →
  List.find (λ kr, String.eqb (ReplicaInfo.Name kr.2) name)
    (rangeOrder env (map_to_list replicas)) = None →
  ∀ k r, replicas !! k = Some r → ReplicaInfo.Name r ≠ name.
Proof.
  intros Hperm Hfind k r Hk Hname.
  assert (Hin : In (k, r) (rangeOrder env (map_to_list replicas))).
  { apply list_elem_of_In. rewrite (Hperm (map_to_list replicas)).
    by apply elem_of_map_to_list. }
  apply (find_none _ _ Hfind) in Hin. cbn in Hin.
  rewrite Hname, String.eqb_refl in Hin. discriminate.
Qed.

Lemma range_finds_entry (replicas : gmap string ReplicaInfo.t) (name k : string)
    (r : ReplicaInfo.t) :
  (∀ l, rangeOrder env l ≡ₚ l) →
  List.find (λ kr, String.eqb (ReplicaInfo.Name kr.2) name)
    (rangeOrder env (map_to_list replicas)) = Some (k, r) →
  replicas !! k = Some r ∧ ReplicaInfo.Name r = name.
Proof.
  intros Hperm Hfind. apply find_some in Hfind as [Hin Heq]. cbn in Heq. split.
  - apply elem_of_map_to_list. rewrite <- (Hperm (map_to_list replicas)).
    by apply list_elem_of_In.
  - by apply String.eqb_eq.
Qed.

(** Every way MarkBadReplica can go. *)
Lemma MarkBadReplica_cases (volumeName : string) (replica : ReplicaInfo.t) (w : World) :
  (∀ l, rangeOrder env l ≡ₚ l) →
  ∃ r w',
    MarkBadReplica env volumeName replica w = (Done r, w') ∧
    trace w' = trace w ∧
    ((∃ e, r = Some e ∧ volumes w' = volumes w) ∨
     (∃ v, r = None ∧ volumes w !! volumeName = Some v ∧
           (∀ k r0, VolumeInfo.Replicas v !! k = Some r0 →
                    ReplicaInfo.Name r0 ≠ ReplicaInfo.Name replica) ∧
           clock w' = clock w ∧
           volumes w' = <[VolumeInfo.Name v := v]> (volumes w)) ∨
     (∃ v k r0, r = None ∧ volumes w !! volumeName = Some v ∧
                VolumeInfo.Replicas v !! k = Some r0 ∧
                ReplicaInfo.Name r0 = ReplicaInfo.Name replica ∧
                volumes w' =
                  <[VolumeInfo.Name v :=
                      putReplica v k (stamp r0 (clock w + latency env (clock w))%N)]>
                    (volumes w))).
Proof.
  intros Hperm. unfold MarkBadReplica, bind.
  destruct (getVolume_cases volumeName w)
    as (w1 & Hvs & Htr & Hck & [Hget | [[_ Hget] | (v & Hv & Hget)]]);
    rewrite Hget; cbn.
  - eexists _, _. split; [done|]. split; [done|]. left. eauto.
  - eexists _, _. split; [done|]. split; [done|]. left. eauto.
  - destruct (List.find _ _) as [[k r0]|] eqn:Hfind; cbn.
    + apply (range_finds_entry _ _ _ _ Hperm) in Hfind as [Hk Hname].
      unfold time_Now. cbn.
      set (t := (clock w1 + latency env (clock w1))%N).
      set (wt := mkWorld (volumes w1) (faults w1) (trace w1) t).
      destruct (UpdateVolume_cases (putReplica v k (stamp r0 t)) wt)
        as (r & w' & Hupd & Htr' & _ & [(e & -> & Hvs') | (-> & _ & Hvs')]);
        rewrite Hupd; cbn; eexists _, _; (split; [done|]);
        (split; [by rewrite Htr'|]).
      * left. eexists. split; [done|]. by rewrite Hvs'.
      * right. right. exists v, k, r0. repeat split; try done.
        rewrite Hvs'. cbn. subst t. by rewrite Hvs, Hck.
    + pose proof (range_finds_none _ _ Hperm Hfind) as Hnone.
      destruct (UpdateVolume_cases v w1)
        as (r & w' & Hupd & Htr' & Hck' & [(e & -> & Hvs') | (-> & _ & Hvs')]);
        rewrite Hupd; cbn; eexists _, _; (split; [done|]);
        (split; [by rewrite Htr', Htr|]).
      * left. eexists. split; [done|]. by rewrite Hvs'.
      * right. left. exists v. repeat split; try done; [congruence|].
        by rewrite Hvs', Hvs.
Qed.


(** X14. When MarkBadReplica returns an error, no record of the store has
    changed; and an error of the first read is returned wrapped, before the
    clock is read or anything is written. *)
Theorem MarkBadReplica_error_changes_nothing (volumeName : string)
    (replica : ReplicaInfo.t) (w : World) :
  (∀ l, rangeOrder env l ≡ₚ l) →
  (∀ e w', MarkBadReplica env volumeName replica w = (Done (Some e), w') →
           volumes w' = volumes w) ∧
  (∀ v e w1,
     getVolume volumeName w = (Done (v, Some e), w1) →
     MarkBadReplica env volumeName replica w =
       (Done (Some (Wrap e "fail to mark bad replica, cannot get volume")), w1) ∧
     volumes w1 = volumes w ∧ clock w1 = clock w).
Proof.
  intros Hperm. split.
  - intros e w' Hrun.
    destruct (MarkBadReplica_cases volumeName replica w Hperm)
      as (r & w'' & Hrun' & _ & Hcases).
    rewrite Hrun in Hrun'. simplify_eq.
    destruct Hcases as [(e' & _ & Hvs) | [(v & [=] & _) | (v & k & r0 & [=] & _)]].
    done.
  - intros v e w1 Hget. split.
    + unfold MarkBadReplica, bind. by rewrite Hget.
    + destruct (getVolume_cases volumeName w)
        as (w' & Hvs & _ & Hck & [H | [[_ H] | (v0 & _ & H)]]);
        rewrite H in Hget; by simplify_eq.
Qed.

(** X15. Whatever MarkBadReplica returns, of the volume it was called on it
    can only have changed the BadTimestamp of one replica entry of the given
    Name, to an instant not before the call began: no entry is added or
    removed, every other entry and field is as before, and the records of
    other volumes are untouched. *)
Theorem MarkBadReplica_frame (volumeName : string) (replica : ReplicaInfo.t)
    (v : VolumeInfo.t) (w w' : World) (r : Outcome (option error)) :
  (∀ l, rangeOrder env l ≡ₚ l) →
  volumes w !! volumeName = Some v →
  VolumeInfo.Name v = volumeName →
  MarkBadReplica env volumeName replica w = (r, w') →
  (∀ name, name ≠ volumeName → volumes w' !! name = volumes w !! name) ∧
  ∃ v' k,
    volumes w' !! volumeName = Some v' ∧
    VolumeInfo.Name v' = VolumeInfo.Name v ∧
    VolumeInfo.Size v' = VolumeInfo.Size v ∧
    VolumeInfo.LonghornImage v' = VolumeInfo.LonghornImage v ∧
    dom (VolumeInfo.Replicas v') = dom (VolumeInfo.Replicas v) ∧
    (∀ k', k' ≠ k → VolumeInfo.Replicas v' !! k' = VolumeInfo.Replicas v !! k') ∧
    (∀ r', VolumeInfo.Replicas v' !! k = Some r' →
       ∃ r0, VolumeInfo.Replicas v !! k = Some r0 ∧
             ReplicaInfo.InstanceInfo r' = ReplicaInfo.InstanceInfo r0 ∧
             (r' = r0 ∨
              (ReplicaInfo.Name r0 = ReplicaInfo.Name replica ∧
               (clock w ≤ ReplicaInfo.BadTimestamp r')%N))).
Proof.
  intros Hperm Hstored Hname Hrun.
  destruct (MarkBadReplica_cases volumeName replica w Hperm)
    as (r1 & w1 & Hrun' & _ & Hcases).
  rewrite Hrun in Hrun'. simplify_eq.
  assert (Hsame : ∀ vs : gmap string VolumeInfo.t,
            vs !! VolumeInfo.Name v = Some v →
            ∃ v' k,
              vs !! VolumeInfo.Name v = Some v' ∧
              VolumeInfo.Name v' = VolumeInfo.Name v ∧
              VolumeInfo.Size v' = VolumeInfo.Size v ∧
              VolumeInfo.LonghornImage v' = VolumeInfo.LonghornImage v ∧
              dom (VolumeInfo.Replicas v') = dom (VolumeInfo.Replicas v) ∧
              (∀ k', k' ≠ k →
                 VolumeInfo.Replicas v' !! k' = VolumeInfo.Replicas v !! k') ∧
              (∀ r', VolumeInfo.Replicas v' !! k = Some r' →
                 ∃ r0, VolumeInfo.Replicas v !! k = Some r0 ∧
                       ReplicaInfo.InstanceInfo r' = ReplicaInfo.InstanceInfo r0 ∧
                       (r' = r0 ∨
                        (ReplicaInfo.Name r0 = ReplicaInfo.Name replica ∧
                         (clock w ≤ ReplicaInfo.BadTimestamp r')%N)))).
  { intros vs Hvs. exists v, "". repeat split; try done. eauto. }
  destruct Hcases as [(e & _ & Hvs) | [(v0 & _ & Hv0 & _ & _ & Hvs)
                                      | (v0 & k & r0 & _ & Hv0 & Hk & Hr0 & Hvs)]].
  - rewrite Hvs. split; [done|]. by apply Hsame.
  - assert (v0 = v) as -> by congruence. rewrite Hvs. split.
    + intros name Hne. by rewrite lookup_insert_ne.
    + apply Hsame. by rewrite lookup_insert_eq.
  - assert (v0 = v) as -> by congruence. rewrite Hvs. split.
    + intros name Hne. by rewrite lookup_insert_ne.
    + eexists _, k. rewrite lookup_insert_eq. split; [done|]. cbn.
      split; [done|]. split; [done|]. split; [done|]. split.
      { apply dom_insert_lookup_L. by rewrite Hk. }
      split.
      { intros k' Hne. by rewrite lookup_insert_ne. }
      intros r'. rewrite lookup_insert_eq. intros [= <-].
      exists r0. split; [done|]. split; [done|]. right. split; [done|]. cbn. lia.
Qed.

End MarkBadMore.

(** ** Host identity *)

Lemma fsRequest_files (w w' : HostWorld) (fault : option string) :
  fsRequest w = (fault, w') →
  files w' = files w ∧ hosts w' = hosts w ∧ hostFaults w' = hostFaults w.
Proof.
  unfold fsRequest. destruct (fsFaults w); intros [= <- <-]; done.
Qed.

(** What getCurrentHost does to the identity file, run by run. *)
Lemma getCurrentHost_cases (henv : HostEnv) (address : string) (w : HostWorld) :
  ∃ r w',
    getCurrentHost henv address w = (r, w') ∧
    hosts w' = hosts w ∧ hostFaults w' = hostFaults w ∧
    ((∃ e, r = (None, Some e) ∧ files w' = files w) ∨
     (∃ uuid,
        r = (Some (HostInfo.mk uuid (os_Hostname henv).1 address), None) ∧
        (os_Hostname henv).2 = None ∧
        files w' !! hostUUIDFile = Some uuid ∧
        (files w' = files w ∨
         (uuid = util_UUID henv ∧
          files w' = <[hostUUIDFile := util_UUID henv]> (files w))))).
Proof.
  unfold getCurrentHost.
  destruct (os_Hostname henv) as [name [msg|]]; cbn.
  { eexists _, _. split; [done|]. eauto 10. }
  unfold ioutil_ReadFile.
  destruct (fsRequest w) as [fault w1] eqn:H1.
  apply fsRequest_files in H1 as (Hf1 & Hh1 & Hhf1).
  assert (Hregen :
    ∃ r w',
      (let (err, w2) := os_MkdirAll cfgDirectory w1 in
       match err with
       | Some msg =>
           ((None, errors_Errorf "Fail to create configuration directory: %v"
                     [AString msg]), w2)
       | None =>
           let (err0, w3) := ioutil_WriteFile hostUUIDFile (util_UUID henv) w2 in
           match err0 with
           | Some msg =>
               ((None, errors_Errorf "Fail to write host uuid file: %v"
                         [AString msg]), w3)
           | None => ((Some (HostInfo.mk (util_UUID henv) name address), None), w3)
           end
       end) = (r, w') ∧
      hosts w' = hosts w ∧ hostFaults w' = hostFaults w ∧
      ((∃ e, r = (None, Some e) ∧ files w' = files w) ∨
       (∃ uuid,
          r = (Some (HostInfo.mk uuid name address), None) ∧
          @None string = None ∧
          files w' !! hostUUIDFile = Some uuid ∧
          (files w' = files w ∨
           (uuid = util_UUID henv ∧
            files w' = <[hostUUIDFile := util_UUID henv]> (files w)))))).
  { unfold os_MkdirAll, ioutil_WriteFile.
    destruct (fsRequest w1) as [err w2] eqn:H2.
    apply fsRequest_files in H2 as (Hf2 & Hh2 & Hhf2).
    destruct err as [msg|].
    { eexists _, _. split; [done|]. split; [congruence|]. split; [congruence|].
      left. eexists. split; [done|]. congruence. }
    destruct (fsRequest w2) as [err w3] eqn:H3.
    apply fsRequest_files in H3 as (Hf3 & Hh3 & Hhf3).
    destruct err as [msg|].
    { eexists _, _. split; [done|]. split; [congruence|]. split; [congruence|].
      left. eexists. split; [done|]. congruence. }
    eexists _, _. split; [done|]. cbn. split; [congruence|]. split; [congruence|].
    right. exists (util_UUID henv). split; [done|]. split; [done|].
    split; [apply lookup_insert_eq|]. right. split; [done|]. congruence. }
  destruct fault as [msg|]; [exact Hregen|].
  destruct (files w1 !! hostUUIDFile) as [content|] eqn:Hfile; [|exact Hregen].
  eexists _, _. split; [done|]. split; [done|]. split; [done|].
  right. exists content. split; [done|]. split; [done|]. split; [done|]. by left.
Qed.

(** X16. The host identity survives restarts: after any run in which
    getCurrentHost returned a host, the identity file holds that host's UUID,
    and a later run that can read the file returns the same UUID (under the
    address and host name of that run) and writes nothing, whatever its UUID
    generator would have produced. *)
Theorem host_identity_is_stable (henv1 henv2 : HostEnv) (address1 address2 : string)
    (w w1 : HostWorld) (host1 : HostInfo.t) (err1 : option error) (name2 : string) :
  getCurrentHost henv1 address1 w = ((Some host1, err1), w1) →
  os_Hostname henv2 = (name2, None) →
  (∀ msg, head (fsFaults w1) ≠ Some (Some msg)) →
  files w1 !! hostUUIDFile = Some (HostInfo.UUID host1) ∧
  ∃ w2,
    getCurrentHost henv2 address2 w1 =
      ((Some (HostInfo.mk (HostInfo.UUID host1) name2 address2), None), w2) ∧
    files w2 = files w1.
Proof.
  intros Hrun1 Hname2 Hserved.
  destruct (getCurrentHost_cases henv1 address1 w)
    as (r & w' & Hrun & _ & _ & Hcases).
  rewrite Hrun1 in Hrun. injection Hrun as <- <-.
  destruct Hcases as [(e & [=] & _) | (uuid & [= -> ->] & _ & Hfile & _)].
  cbn. split; [done|].
  unfold getCurrentHost. rewrite Hname2. unfold ioutil_ReadFile, fsRequest.
  destruct (fsFaults w1) as [|[msg|] fs] eqn:Hfs; cbn.
  - rewrite Hfile. eauto.
  - by destruct (Hserved msg).
  - rewrite Hfile. eauto.
Qed.

(** X17. getCurrentHost generates a new identity whenever the read of the
    identity file reports an error, be the file absent or present and
    unreadable: with the directory made and the file written, the host gets
    the generated UUID and the file holds it, whatever it held before. *)
Theorem host_identity_regenerated_on_read_error (henv : HostEnv) (address name : string)
    (w : HostWorld) :
  os_Hostname henv = (name, None) →
  let fresh := HostInfo.mk (util_UUID henv) name address in
  (∀ msg fs,
     fsFaults w = Some msg :: None :: None :: fs →
     getCurrentHost henv address w =
       ((Some fresh, None),
        mkHostWorld (<[hostUUIDFile := util_UUID henv]> (files w)) fs (hosts w)
          (hostFaults w))) ∧
  (files w !! hostUUIDFile = None →
   (fsFaults w = [] ∨ ∃ fs, fsFaults w = None :: None :: None :: fs) →
   getCurrentHost henv address w =
     ((Some fresh, None),
      mkHostWorld (<[hostUUIDFile := util_UUID henv]> (files w))
        (drop 3 (fsFaults w)) (hosts w) (hostFaults w))).
Proof.
  intros Hname fresh. split.
  - intros msg fs Hfs.
    unfold getCurrentHost, ioutil_ReadFile, os_MkdirAll, ioutil_WriteFile, fsRequest.
    rewrite Hname, Hfs. reflexivity.
  - intros Habsent [Hfs | [fs Hfs]];
      unfold getCurrentHost, ioutil_ReadFile, os_MkdirAll, ioutil_WriteFile, fsRequest;
      rewrite Hname, Hfs; cbn; rewrite ?Hfs; cbn; rewrite Habsent, ?Hfs; cbn;
      rewrite ?Hfs; reflexivity.
Qed.


(** X19. Register: when it returns an error the engine is as before and no
    host record was written.  When it succeeds, the engine's current host
    has the address given and the UUID that the identity file holds, and is
    the record stored under that UUID; GetAddress of the engine's own ID
    then returns the address without a request to the store, and another
    engine resolves that ID to the same address through the store. *)
Theorem Register_then_GetAddress (henv : HostEnv) (d d' : dockerOrc.t)
    (address : string) (w w' : HostWorld) (err : option error) :
  Register henv d address w = ((err, d'), w') →
  (err ≠ None → d' = d ∧ hosts w' = hosts w) ∧
  (err = None →
   let id := HostInfo.UUID (dockerOrc.currentHost d') in
   files w' !! hostUUIDFile = Some id ∧
   HostInfo.Address (dockerOrc.currentHost d') = address ∧
   hosts w' !! id = Some (dockerOrc.currentHost d') ∧
   dockerOrc.LonghornImage d' = dockerOrc.LonghornImage d ∧
   (∀ w'', GetAddress d' id w'' = (Done (address, None), w'')) ∧
   (∀ d2 w'',
      HostInfo.UUID (dockerOrc.currentHost d2) ≠ id →
      hosts w'' = hosts w' → head (hostFaults w'') ≠ Some true →
      ∃ w3, GetAddress d2 id w'' = (Done (address, None), w3))).
Proof.
  unfold Register.
  destruct (getCurrentHost_cases henv address w)
    as (r & w1 & Hrun & Hhosts & _ & [(e & -> & _) | (uuid & -> & _ & Hfile & _)]);
    rewrite Hrun; cbn.
  { intros [= <- <- <-]. split; [done|]. intros [=]. }
  set (host := HostInfo.mk uuid (os_Hostname henv).1 address).
  assert (Hset :
    (∃ fs, setHost host w1 =
             (Some StoreUnavailable, mkHostWorld (files w1) (fsFaults w1) (hosts w1) fs)) ∨
    (∃ fs, setHost host w1 =
             (None, mkHostWorld (files w1) (fsFaults w1)
                      (<[uuid := host]> (hosts w1)) fs))).
  { unfold setHost. destruct (hostFaults w1) as [|[] fs]; eauto. }
  destruct Hset as [[fs Hset] | [fs Hset]]; rewrite Hset.
  { intros [= <- <- <-]. split; [done|]. intros [=]. }
  intros [= <- <- <-]. split; [done|]. intros _. cbn.
  split; [done|]. split; [done|]. split; [apply lookup_insert_eq|]. split; [done|].
  split.
  - intros w''. unfold GetAddress. cbn. by rewrite String.eqb_refl.
  - intros d2 w'' Hother Hhosts'' Hserved.
    unfold GetAddress. apply String.eqb_neq in Hother.
    rewrite String.eqb_sym in Hother. cbn in Hother. rewrite Hother.
    unfold GetHost, getHost.
    destruct (hostFaults w'') as [|[] fs'] eqn:Hhf; [|done|];
      rewrite Hhosts''; cbn; rewrite lookup_insert_eq; eauto.
Qed.

(** * More of the engine at work *)

(** X1 at work: the controller of vol1 comes up. *)
Lemma createController_success_means_ready_witness :
  ∃ cid j,
    ContainerCreate (simEnv noFaults) (trace simWorld) (controllerConfig controllerData)
      controllerHostConfig "c1" = (cid, None) ∧
    ContainerInspect (simEnv noFaults)
      (trace simWorld ++
         [EvCreate (controllerConfig controllerData) controllerHostConfig "c1";
          EvStart cid]) cid = (j, None).
Proof.
  edestruct (createController_success_means_ready (simEnv noFaults) simOrc
               controllerData simWorld) as (cid & j & H);
    [vm_compute; reflexivity|].
  cbv zeta in H. destruct H as (_ & Hcreate & _ & Hinspect & _).
  exists cid, j. split; [exact Hcreate | exact Hinspect].
Defined.

(** X2 at work: a runtime that refuses to start containers. *)
Lemma create_removes_iff_start_failed_witness :
  ∃ r evs,
    createController (simEnv startFailing) simOrc controllerData simWorld
      = (r, issued simWorld evs) ∧
    EvRemove "id-c1" true ∈ evs.
Proof.
  pose proof (create_removes_iff_start_failed (simEnv startFailing) simOrc
                controllerData simWorld) as H.
  cbv zeta in H. destruct H as [(r & evs & Hrun & Hiff) _].
  exists r, evs. split; [exact Hrun|].
  apply Hiff. split; [reflexivity|]. split; [reflexivity|]. left. discriminate.
Defined.

(** X3 at work: replica r1 of vol1. *)
Lemma createReplica_command_and_result_witness :
  ∃ r evs,
    createReplica (simEnv noFaults) simOrc replicaData simWorld =
      (r, issued simWorld
            (EvCreate
               (Config.mk ["9502-9504"] "longhornio/engine:v1" ["/volume"]
                  ["launch"; "replica"; "--listen"; "0.0.0.0:9502";
                   "--size"; "1073741824"; "/volume"])
               (HostConfig.mk [] true) "r1" :: evs)) ∧
    evs = [EvStart "id-r1"; EvInspect "id-r1"].
Proof.
  pose proof (createReplica_command_and_result (simEnv noFaults) simOrc replicaData
                simWorld) as H.
  cbv zeta in H. destruct H as (r & evs & Hrun & _ & Hok).
  exists r, evs. split; [exact Hrun|].
  assert (Hval : ∃ i w', createReplica (simEnv noFaults) simOrc replicaData simWorld
                         = (Done (Some i, None), w'))
    by (eexists _, _; vm_compute; reflexivity).
  destruct Hval as (i & w' & Hval).
  assert (Hr : r = Done (Some i, None)) by congruence.
  destruct (Hok i None Hr) as (_ & cid & j & Hcreate & _ & _ & ->).
  by injection Hcreate as <-.
Defined.


(** X5 at work: the runtime reports the container as /r1. *)
Lemma instance_is_read_off_inspection_witness :
  ∃ i,
    startInstance (simEnv noFaults) simOrc "id-r1" InstanceTypeReplica simWorld
      = (Done (Some i, None), issued simWorld [EvStart "id-r1"; EvInspect "id-r1"]) ∧
    InstanceInfo.Name i = "r1" ∧ InstanceInfo.HostID i = "host-1".
Proof.
  pose proof (instance_is_read_off_inspection (simEnv noFaults) simOrc "id-r1"
                InstanceTypeReplica simWorld
                (ContainerJSON.mk "id-r1" "/r1" "10.0.0.6" true)) as H.
  cbv zeta in H. destruct H as [H _].
  destruct (H eq_refl eq_refl) as (i & Hrun & _ & _ & Hhost & _ & _ & Hname & _).
  exists i. split; [exact Hrun|]. split; [by apply Hname | exact Hhost].
Defined.

(** X6 at work: an instance without HostID, and replica r1. *)
Lemma instance_operations_validate_witness :
  StartInstance (simEnv noFaults) simOrc
    (InstanceInfo.mk "id-r1" InstanceTypeReplica "r1" "" "10.0.0.5" true) simWorld =
    (Done (Some (Errorf "Invalid instance info to start %+v"
                   (fmtInstance
                      (InstanceInfo.mk "id-r1" InstanceTypeReplica "r1" "" "10.0.0.5"
                         true)))), simWorld) ∧
  ∃ r evs,
    StartInstance (simEnv noFaults) simOrc instance1 simWorld =
      (r, issued simWorld
            (EvSchedule
               (ScheduleItem.mk ScheduleActionStartInstance scheduleInstance1
                  (ScheduleData.mk "docker" "")) :: evs)).
Proof.
  split.
  - pose proof (instance_operations_validate (simEnv noFaults) simOrc
                  (InstanceInfo.mk "id-r1" InstanceTypeReplica "r1" "" "10.0.0.5" true)
                  simWorld) as H.
    cbv zeta in H. destruct H as [H _].
    destruct H as [H _]; [right; left; reflexivity | exact H].
  - pose proof (instance_operations_validate (simEnv noFaults) simOrc instance1
                  simWorld) as H.
    cbv zeta in H. destruct H as [_ H].
    destruct H as [H _]; [repeat split; discriminate | exact H].
Defined.

(** X7 at work: replica r1 is removed on its host. *)
Lemma instance_operations_run_here_witness :
  RemoveInstance (simEnv noFaults) simOrc instance1 simWorld =
    (Done None,
     issued simWorld
       [EvSchedule
          (ScheduleItem.mk ScheduleActionDeleteInstance scheduleInstance1
             (ScheduleData.mk "docker" ""));
        EvRemove "id-r1" true]).
Proof.
  pose proof (instance_operations_run_here (simEnv noFaults) simOrc instance1 simWorld) as H.
  cbv zeta in H.
  destruct H as (_ & _ & H); [discriminate | discriminate | discriminate | reflexivity|].
  exact H.
Defined.

(** X8 at work: no volume is stored in emptyWorld. *)
Lemma create_fails_before_scheduling_witness :
  CreateController (simEnv noFaults) simOrc "vol1" "c1" ∅ emptyWorld =
    (Done (None, Some (Wrapf (Wrap (KeyNotFound "vol1") "unable to create controller")
                         "Fail to create controller for %v" [AString "vol1"])),
     emptyWorld) ∧
  CreateReplica (simEnv noFaults) simOrc "vol1" "c1" emptyWorld =
    (Done (None, Some (Wrapf (Wrap (KeyNotFound "vol1") "unable to create replica")
                         "Fail to create replica for %v" [AString "vol1"])),
     emptyWorld).
Proof.
  destruct (create_fails_before_scheduling (simEnv noFaults) simOrc "vol1" "c1" ∅
              emptyWorld) as [H _].
  destruct (H None (KeyNotFound "vol1") emptyWorld) as (_ & HC & HR).
  - rewrite getVolume_healthy by reflexivity. reflexivity.
  - split; [exact HC | exact HR].
Defined.



(** X11 at work: a controller without a name. *)
Lemma CreateController_empty_name_witness :
  ∃ e bData,
    CreateController (simEnv noFaults) simOrc "vol1" "" ∅ simWorld =
      (Done (None, Some (Wrapf e "Fail to create controller for %v" [AString "vol1"])),
       issued simWorld
         [EvSchedule
            (ScheduleItem.mk ScheduleActionCreateController
               (ScheduleInstance.mk "" InstanceTypeController "host-1")
               (ScheduleData.mk "docker" bData))]).
Proof.
  pose proof (CreateController_empty_name (simEnv noFaults) simOrc "vol1" ∅ vol1
                (sim_Marshal (controllerPayload (simEnv noFaults) vol1 "vol1" "" ∅)).1
                simWorld) as Hrun.
  cbv zeta in Hrun. destruct Hrun as (e & H).
  - reflexivity.
  - apply simWorld_vol1.
  - reflexivity.
  - discriminate.
  - eexists e, _. exact H.
Defined.

(** X12 at work: vol1 is resized, then given back its first record. *)
Lemma UpdateVolume_last_writer_wins_witness :
  ∃ w1 w2,
    UpdateVolume vol1_resized simWorld = (Done None, w1) ∧
    UpdateVolume vol1 w1 = (Done None, w2) ∧
    GetVolume "vol1" w2 = (Done (Some vol1, None), w2).
Proof.
  destruct (UpdateVolume_last_writer_wins vol1_resized vol1 simWorld)
    as (w1 & w2 & H1 & _ & H2 & H3 & _).
  - reflexivity.
  - exists vol1. apply simWorld_vol1.
  - reflexivity.
  - exists w1, w2. split; [exact H1|]. split; [exact H2 | exact H3].
Defined.


(** X14 at work: the store does not serve the read. *)
Lemma MarkBadReplica_error_changes_nothing_witness :
  ∃ w1,
    MarkBadReplica (simEnv noFaults) "vol1" replica1 faultyWorld =
      (Done (Some (Wrap StoreUnavailable "fail to mark bad replica, cannot get volume")),
       w1) ∧
    volumes w1 = volumes faultyWorld.
Proof.
  destruct (MarkBadReplica_error_changes_nothing (simEnv noFaults) "vol1" replica1
              faultyWorld (simEnv_rangeOrder noFaults)) as [Hsame Hread].
  destruct (Hread None StoreUnavailable
              (mkWorld (<["vol1" := vol1]> ∅) [] [] 1500000000000000000%N) eq_refl)
    as (Hrun & _).
  eexists. split; [exact Hrun|]. exact (Hsame _ _ Hrun).
Defined.

(** X15 at work: marking r1 of vol1 leaves r2 alone. *)
Lemma MarkBadReplica_frame_witness :
  ∃ r w' v',
    MarkBadReplica (simEnv noFaults) "vol1" replica1 simWorld = (r, w') ∧
    volumes w' !! "vol1" = Some v' ∧
    dom (VolumeInfo.Replicas v') = dom (VolumeInfo.Replicas vol1) ∧
    volumes w' !! "vol0" = Some vol0.
Proof.
  destruct (MarkBadReplica (simEnv noFaults) "vol1" replica1 simWorld) as [r w'] eqn:Hrun.
  destruct (MarkBadReplica_frame (simEnv noFaults) "vol1" replica1 vol1 simWorld w' r
              (simEnv_rangeOrder noFaults) simWorld_vol1 eq_refl Hrun)
    as (Hother & v' & k & Hv' & _ & _ & _ & Hdom & _).
  exists r, w', v'. split; [reflexivity|]. split; [exact Hv'|]. split; [exact Hdom|].
  rewrite Hother by discriminate. apply simWorld_vol0.
Defined.

(** X16 at work: first boot, then a restart under another address. *)
Lemma host_identity_is_stable_witness :
  ∃ w1 w2,
    getCurrentHost simHostEnv "10.0.0.1:9500" freshMachine =
      ((Some (HostInfo.mk "6f1c2d3e" "node1" "10.0.0.1:9500"), None), w1) ∧
    getCurrentHost simHostEnv2 "10.0.0.9:9500" w1 =
      ((Some (HostInfo.mk "6f1c2d3e" "node1" "10.0.0.9:9500"), None), w2).
Proof.
  assert (Hboot : getCurrentHost simHostEnv "10.0.0.1:9500" freshMachine =
                    ((Some (HostInfo.mk "6f1c2d3e" "node1" "10.0.0.1:9500"), None),
                     mkHostWorld (<[hostUUIDFile := "6f1c2d3e"]> ∅) [] ∅ []))
    by reflexivity.
  destruct (host_identity_is_stable simHostEnv simHostEnv2 "10.0.0.1:9500"
              "10.0.0.9:9500" freshMachine _ _ _ "node1" Hboot eq_refl)
    as (_ & w2 & H & _).
  - intros msg. discriminate.
  - eexists _, w2. split; [exact Hboot | exact H].
Defined.

(** X17 at work: the identity file of lockedMachine cannot be read. *)
Lemma host_identity_regenerated_on_read_error_witness :
  files lockedMachine !! hostUUIDFile = Some "6f1c2d3e" ∧
  getCurrentHost simHostEnv2 "10.0.0.1:9500" lockedMachine =
    ((Some (HostInfo.mk "9a7eb0c4" "node1" "10.0.0.1:9500"), None),
     mkHostWorld (<[hostUUIDFile := "9a7eb0c4"]> (files lockedMachine)) [] ∅ []) ∧
  getCurrentHost simHostEnv "10.0.0.1:9500" freshMachine =
    ((Some (HostInfo.mk "6f1c2d3e" "node1" "10.0.0.1:9500"), None),
     mkHostWorld (<[hostUUIDFile := "6f1c2d3e"]> ∅) [] ∅ []).
Proof.
  split; [apply lookup_insert_eq|]. split.
  - pose proof (host_identity_regenerated_on_read_error simHostEnv2 "10.0.0.1:9500"
                  "node1" lockedMachine eq_refl) as H.
    cbv zeta in H. destruct H as [H _].
    exact (H "permission denied" [] eq_refl).
  - pose proof (host_identity_regenerated_on_read_error simHostEnv "10.0.0.1:9500"
                  "node1" freshMachine eq_refl) as H.
    cbv zeta in H. destruct H as [_ H].
    apply H; [apply lookup_empty | by left].
Defined.


(** X19 at work: the agent registers on its first boot. *)
Lemma Register_then_GetAddress_witness :
  ∃ d' w',
    Register simHostEnv blankOrc "10.0.0.1:9500" freshMachine = ((None, d'), w') ∧
    HostInfo.UUID (dockerOrc.currentHost d') = "6f1c2d3e" ∧
    GetAddress d' "6f1c2d3e" w' = (Done ("10.0.0.1:9500", None), w') ∧
    ∃ w3, GetAddress simOrc "6f1c2d3e" w' = (Done ("10.0.0.1:9500", None), w3).
Proof.
  set (host := HostInfo.mk "6f1c2d3e" "node1" "10.0.0.1:9500").
  set (w' := mkHostWorld (<[hostUUIDFile := "6f1c2d3e"]> ∅) []
               (<["6f1c2d3e" := host]> ∅) []).
  assert (Hrun : Register simHostEnv blankOrc "10.0.0.1:9500" freshMachine =
                   ((None, setCurrentHost blankOrc host), w')) by reflexivity.
  exists (setCurrentHost blankOrc host), w'.
  split; [exact Hrun|]. split; [reflexivity|].
  destruct (Register_then_GetAddress simHostEnv blankOrc _ _ _ _ _ Hrun) as [_ H].
  cbv zeta in H. destruct (H eq_refl) as (_ & _ & _ & _ & Hown & Hother).
  split; [apply Hown|].
  apply Hother; [discriminate | reflexivity | discriminate].
Defined.
